(** * A shallow embedding of [amboss_scraper.py]

    The extraction and formatting pipeline of the scraper
    ([extract_sections], [extract_content_from_section], [process_list],
    [format_table_with_bullets], [extract_image_info], [clean_text],
    [format_output], ...) is a pure transformation of a parsed document
    tree.  The tree is modelled by the inductive type [node]; the methods
    of the class become functions over it, under the names they have in
    the source.

    Conventions.
    - A Python [str] is a [string]; one [ascii] stands for one character,
      so the character-level helpers ([isspace], [lower]) are those of
      Python restricted to code points below 256.  The glyphs the source
      writes into its output (bullets, emoji) are constants that no length
      test ever looks at.
    - A parsed document holds tags and text nodes (bs4's [Tag] and
      [NavigableString]); comments and processing instructions are not
      represented.
    - The [debug] flag only prints; it is left out. *)

From Stdlib Require Import String Ascii List Bool Arith Lia.
From Stdlib Require Import Numbers.DecimalString.
Import ListNotations.
Open Scope string_scope.
Open Scope list_scope.

(** [s +++ t] is Python's [s + t] on strings *)
Infix "+++" := String.append (right associativity, at level 60).

(** ** Python string operations *)

Module Str.

Definition dq : string := String (ascii_of_nat 34) EmptyString.
Definition nl : string := String (ascii_of_nat 10) EmptyString.
Definition pipe : ascii := ascii_of_nat 124.
Definition backslash : ascii := ascii_of_nat 92.

(** Truth value of a string: [if s:] *)
Definition truthy (s : string) : bool :=
  match s with EmptyString => false | String _ _ => true end.

(** [str.isspace] on one character (code points below 256). *)
Definition isspace (c : ascii) : bool :=
  let n := nat_of_ascii c in
  (Nat.leb 9 n && Nat.leb n 13) || (Nat.leb 28 n && Nat.leb n 32)
  || Nat.eqb n 133 || Nat.eqb n 160.

Definition isdigit (c : ascii) : bool :=
  let n := nat_of_ascii c in Nat.leb 48 n && Nat.leb n 57.

(** [str.lower] on one character (code points below 256). *)
Definition lower_char (c : ascii) : ascii :=
  let n := nat_of_ascii c in
  if (Nat.leb 65 n && Nat.leb n 90)
     || (Nat.leb 192 n && Nat.leb n 222 && negb (Nat.eqb n 215))
  then ascii_of_nat (n + 32) else c.

Fixpoint lower (s : string) : string :=
  match s with
  | EmptyString => EmptyString
  | String c r => String (lower_char c) (lower r)
  end.

(** [s.startswith(p)] *)
Fixpoint startswith (p s : string) : bool :=
  match p with
  | EmptyString => true
  | String a p' =>
      match s with
      | EmptyString => false
      | String b s' => Ascii.eqb a b && startswith p' s'
      end
  end.

(** [sub in s] *)
Fixpoint contains (sub s : string) : bool :=
  startswith sub s ||
  match s with
  | EmptyString => false
  | String _ r => contains sub r
  end.

(** [s.endswith(p)] *)
Definition endswith (p s : string) : bool :=
  Nat.leb (String.length p) (String.length s) &&
  String.eqb (substring (String.length s - String.length p) (String.length p) s) p.

(** [s[:-n]] for a positive literal [n] *)
Definition drop_last (n : nat) (s : string) : string :=
  substring 0 (String.length s - n) s.

Fixpoint lstrip (s : string) : string :=
  match s with
  | EmptyString => EmptyString
  | String c r => if isspace c then lstrip r else s
  end.

Fixpoint rstrip (s : string) : string :=
  match s with
  | EmptyString => EmptyString
  | String c r =>
      let r' := rstrip r in
      if isspace c && negb (truthy r') then EmptyString else String c r'
  end.

(** [s.strip()] *)
Definition strip (s : string) : string := rstrip (lstrip s).

(** [s.split()]: the maximal runs of non-blank characters. *)
Fixpoint split_ws_from (cur : string) (s : string) : list string :=
  match s with
  | EmptyString => if truthy cur then [cur] else []
  | String c r =>
      if isspace c
      then (if truthy cur then [cur] else []) ++ split_ws_from EmptyString r
      else split_ws_from (cur +++ String c EmptyString) r
  end.

Definition split_ws (s : string) : list string := split_ws_from EmptyString s.

(** [s.split(c)] for a one-character separator: empty pieces are kept. *)
Fixpoint split_char_from (sep : ascii) (cur : string) (s : string) : list string :=
  match s with
  | EmptyString => [cur]
  | String c r =>
      if Ascii.eqb c sep
      then cur :: split_char_from sep EmptyString r
      else split_char_from sep (cur +++ String c EmptyString) r
  end.

Definition split_char (sep : ascii) (s : string) : list string :=
  split_char_from sep EmptyString s.

(** [sep.join(l)] *)
Definition join (sep : string) (l : list string) : string := String.concat sep l.

(** [s.replace(old, new)] for a non-empty [old]: the occurrences are
    taken from left to right and do not overlap.  [skip] counts the
    characters of a match that are still to be passed over. *)
Fixpoint replace_from (old new : string) (skip : nat) (s : string) : string :=
  match s with
  | EmptyString => EmptyString
  | String c r =>
      match skip with
      | S k => replace_from old new k r
      | O =>
          if truthy old && startswith old s
          then new +++ replace_from old new (String.length old - 1) r
          else String c (replace_from old new 0 r)
      end
  end.

Definition replace (old new s : string) : string := replace_from old new 0 s.

(** [str(n)] and [f"{n}"] for a natural number *)
Definition of_nat (n : nat) : string := NilZero.string_of_uint (Nat.to_uint n).

(** Python slices on lists: [l[1:-1]] and [l[2:]] *)
Definition slice_1_m1 {A} (l : list A) : list A := removelast (tl l).
Definition slice_2 {A} (l : list A) : list A := skipn 2 l.

End Str.

(** ** The document tree (bs4) *)

(** A text node, or a tag with its name, its [class] attribute (a list of
    class names when the attribute is present), its other attributes and
    its children in document order. *)
#[warnings="-register-all"] Inductive node : Type :=
| NavigableString (text : string)
| Tag (name : string) (class_ : option (list string))
      (attrs : list (string * string)) (contents : list node).

Module Soup.

Definition children (n : node) : list node :=
  match n with
  | NavigableString _ => []
  | Tag _ _ _ cs => cs
  end.

(** [x in l] for a list of strings *)
Definition in_list (x : string) (l : list string) : bool :=
  existsb (String.eqb x) l.

(** [tag.get('class', [])] *)
Definition get_class (n : node) : list string :=
  match n with
  | Tag _ (Some cl) _ _ => cl
  | _ => []
  end.

(** [tag.get(key, '')] for an attribute other than [class] *)
Fixpoint lookup (key : string) (l : list (string * string)) : option string :=
  match l with
  | [] => None
  | (k, v) :: r => if String.eqb k key then Some v else lookup key r
  end.

Definition get (key : string) (n : node) : string :=
  match n with
  | Tag _ _ at_ _ => match lookup key at_ with Some v => v | None => "" end
  | NavigableString _ => ""
  end.

(** The elements inside which the parser makes strings of a class of
    their own ([RubyTextString], [RubyParenthesisString], [Stylesheet],
    [Script], [TemplateString]); the class goes by the innermost such
    element around the string. *)
Definition string_container (name : string) : bool :=
  in_list name ["rt"; "rp"; "style"; "script"; "template"].

(** The strings below a node whose innermost container is [wanted], the
    empty name standing for none, concatenated in document order.
    [current] is the innermost container on the way down. *)
Fixpoint strings_of (wanted current : string) (n : node) : string :=
  match n with
  | NavigableString s => if String.eqb current wanted then s else ""
  | Tag name _ _ cs =>
      String.concat ""
        (map (strings_of wanted (if string_container name then name else current)) cs)
  end.

(** [node.get_text()]: the strings below the node that are of the class
    the node looks for.  For a [script], [style], [template], [rt] or
    [rp] element these are the strings of its own class; for any other
    node they are the plain strings, so that the text of scripts, style
    sheets, templates and ruby annotations is left out.  The node itself
    is taken not to lie inside such an element. *)
Definition get_text (n : node) : string :=
  match n with
  | NavigableString s => s
  | Tag name _ _ _ => strings_of (if string_container name then name else "") "" n
  end.

(** [node.descendants]: every node below, in document order *)
Fixpoint descendants (n : node) : list node :=
  match n with
  | NavigableString _ => []
  | Tag _ _ _ cs => flat_map (fun c => c :: descendants c) cs
  end.

(** *** Matchers *)

(** a tag of the given name: [find('h3')] *)
Definition is_tag (nm : string) (n : node) : bool :=
  match n with
  | Tag nm' _ _ _ => String.eqb nm' nm
  | NavigableString _ => false
  end.

(** a tag whose name is one of a list: [find_all(['td', 'th'])] *)
Definition is_tag_in (nms : list string) (n : node) : bool :=
  match n with
  | Tag nm' _ _ _ => in_list nm' nms
  | NavigableString _ => false
  end.

(** [{'data-e2e-test-id': v}]: the attribute is present with this value *)
Definition has_attr (key v : string) (n : node) : bool :=
  match n with
  | Tag _ _ at_ _ =>
      match lookup key at_ with Some v' => String.eqb v' v | None => false end
  | NavigableString _ => false
  end.

(** [class_=f] for a function [f]: bs4 tries [f] on every class name and
    then on the class names joined by a blank; without a [class]
    attribute [f] receives [None], which the source's functions reject. *)
Definition class_matches (f : string -> bool) (n : node) : bool :=
  match n with
  | Tag _ (Some cl) _ _ => existsb f cl || f (Str.join " " cl)
  | _ => false
  end.

(** [class_='name'] *)
Definition class_is (c : string) (n : node) : bool :=
  class_matches (String.eqb c) n.

(** *** Searches *)

(** [node.find_all(...)] *)
Definition find_all (p : node -> bool) (n : node) : list node :=
  filter p (descendants n).

(** [node.find_all(..., limit=k)] *)
Definition find_all_limit (k : nat) (p : node -> bool) (n : node) : list node :=
  firstn k (find_all p n).

(** [node.find_all(..., recursive=False)] *)
Definition find_all_direct (p : node -> bool) (n : node) : list node :=
  filter p (children n).

(** [node.find(...)] *)
Definition find (p : node -> bool) (n : node) : option node :=
  hd_error (find_all p n).

(** [node.find(..., recursive=False)] *)
Definition find_direct (p : node -> bool) (n : node) : option node :=
  hd_error (find_all_direct p n).

(** [a or b] on search results: a tag is always true *)
Definition or_else (a b : option node) : option node :=
  match a with Some _ => a | None => b end.

End Soup.

(** Loops that are recursive calls in disguise.  The functions below are
    used where the source walks the children of a node and calls itself on
    some of them; they take the function to call as an argument, so that
    the recursion stays structural. *)
Section Walk.
Context {A : Type}.
Variable p : node -> bool.
Variable f : node -> A.
Variable d : A.

(** [f] on the first element that satisfies [p], [d] when there is none *)
Fixpoint on_first (l : list node) : A :=
  match l with
  | [] => d
  | c :: r => if p c then f c else on_first r
  end.

End Walk.

(** A loop that returns from the function at the first success *)
Fixpoint first_some {A B : Type} (f : A -> option B) (l : list A) : option B :=
  match l with
  | [] => None
  | x :: r => match f x with Some y => Some y | None => first_some f r end
  end.

Import Soup.

(** ** [clean_text] *)

(** Number of digits at the start of a string *)
Fixpoint digits_len (s : string) : nat :=
  match s with
  | EmptyString => 0
  | String c r => if Str.isdigit c then S (digits_len r) else 0
  end.

(** Length of the match of [\[\d+\]] at the start of [s], if there is one *)
Definition ref_match (s : string) : option nat :=
  match s with
  | EmptyString => None
  | String c r =>
      let k := digits_len r in
      if Ascii.eqb c "["%char && Nat.ltb 0 k
         && Str.startswith "]" (substring k (String.length r - k) r)
      then Some (k + 2) else None
  end.

(** [re.sub(r'\[\d+\](?:\[\d+\])*', '', s)].  The pattern matches a
    maximal run of adjacent bracket groups; removing the run is removing
    its groups one after the other, which is what this scan does.  [skip]
    counts the characters of a group still to be passed over. *)
Fixpoint sub_refs_from (skip : nat) (s : string) : string :=
  match s with
  | EmptyString => EmptyString
  | String c r =>
      match skip with
      | S k => sub_refs_from k r
      | O =>
          match ref_match s with
          | Some m => sub_refs_from (m - 1) r
          | None => String c (sub_refs_from 0 r)
          end
      end
  end.

Definition sub_refs (s : string) : string := sub_refs_from 0 s.

Definition unwanted_strings : list string :=
  ["Maximize table"; "Table Quiz"; "Collapse"; "Notes"; "Feedback"].

Definition clean_text (text : string) : string :=
  if negb (Str.truthy text) then "" else
  let text := Str.join " " (Str.split_ws text) in
  let text := sub_refs text in
  let text := fold_left (fun t unwanted => Str.replace unwanted "" t)
                        unwanted_strings text in
  Str.strip text.

(** ** Section titles *)

Definition header_keyword (x : string) : bool :=
  Str.contains "header" (Str.lower x).

Definition button_keyword (x : string) : bool :=
  existsb (fun keyword => Str.contains keyword (Str.lower x))
          ["header"; "title"; "button"].

Definition title_keyword (x : string) : bool :=
  existsb (fun keyword => Str.contains keyword (Str.lower x))
          ["header"; "title"].

(** The cleaned text of a heading, when it is not empty: the pattern
    [title = self.clean_text(h3.get_text()); if title: return title] *)
Definition heading_title (h3_element : option node) : option string :=
  match h3_element with
  | Some h3 =>
      let title := clean_text (get_text h3) in
      if Str.truthy title then Some title else None
  | None => None
  end.

Definition extract_section_title (section : node) : option string :=
  (* Strategy 1: data-e2e-test-id="particle-header" *)
  let header_element :=
    find (fun n => is_tag "div" n && has_attr "data-e2e-test-id" "particle-header" n)
         section in
  match match header_element with
        | Some h => heading_title (find (is_tag "h3") h)
        | None => None
        end with
  | Some title => Some title
  | None =>
  (* Strategy 2: any h3 in header area *)
  let header_container :=
    find (fun n => is_tag "div" n && class_matches header_keyword n) section in
  match match header_container with
        | Some h => heading_title (find (is_tag "h3") h)
        | None => None
        end with
  | Some title => Some title
  | None =>
  (* Strategy 3: any h3 in the section *)
  match heading_title (find (is_tag "h3") section) with
  | Some title => Some title
  | None =>
  (* Strategy 4: button or clickable element with text *)
  let button_elements :=
    find_all (fun n => is_tag_in ["button"; "div"] n && class_matches button_keyword n)
             section in
  match first_some
          (fun button =>
             let text := clean_text (get_text button) in
             if Str.truthy text && Nat.ltb (String.length text) 100
             then Some text else None)
          button_elements with
  | Some text => Some text
  | None =>
  (* Strategy 5: any text in header-like elements *)
  first_some
    (fun elem =>
       match get_class elem with
       | [] => None
       | _ :: _ =>
           let classes := Str.join " " (get_class elem) in
           if title_keyword classes then
             let text := clean_text (get_text elem) in
             if Str.truthy text && Nat.ltb 5 (String.length text)
                && Nat.ltb (String.length text) 100
             then Some text else None
           else None
       end)
    (find_all_limit 10 (is_tag_in ["div"; "span"]) section)
  end end end end.

Definition extract_section_title_from_element (section : node) : option string :=
  heading_title (find (is_tag "h3") section).

(** ** Lists *)

(** The text of a list item: the cleaned texts of its children up to the
    first nested [ul], the empty ones left out, joined by blanks.  Both
    kinds of child go through [clean_text]. *)
Fixpoint li_text_parts (cs : list node) : list string :=
  match cs with
  | [] => []
  | child :: r =>
      if is_tag "ul" child then []
      else
        let text := clean_text (get_text child) in
        (if Str.truthy text then [text] else []) ++ li_text_parts r
  end.

Definition li_text (li : node) : string :=
  Str.strip (Str.join " " (li_text_parts (children li))).

(** [ul_element.find_all('li', recursive=False)] and
    [li.find('ul', recursive=False)] walk the children of the node at
    hand; the two [match]es only name these children. *)
Fixpoint process_list (ul_element : node) : list string :=
  match ul_element with
  | NavigableString _ => []
  | Tag _ _ _ ul_children =>
      flat_map
        (fun li =>
           match li with
           | NavigableString _ => []
           | Tag _ _ _ li_children =>
               if is_tag "li" li then
                 [if Str.truthy (li_text li) then "<li>" +++ li_text li else "<li>"]
                 ++ on_first (is_tag "ul")
                      (fun nested_ul =>
                         ["<ul>"] ++ process_list nested_ul ++ ["</ul>"])
                      [] li_children
                 ++ ["</li>"]
               else []
           end)
        ul_children
  end.

(** ** Tables *)

(** The inner function [process_list_item] of [format_table_with_bullets].
    It appends to the [bullet_content] list of the enclosing call; here it
    returns the lines it appends, in the order it appends them. *)
Fixpoint process_list_item (bullet_char indent : string) (li_element : node)
  {struct li_element} : list string :=
  match li_element with
  | NavigableString _ => []
  | Tag _ _ _ li_children =>
      (if Str.truthy (li_text li_element)
       then [indent +++ bullet_char +++ " " +++ li_text li_element] else [])
      ++ on_first (is_tag "ul")
           (fun nested_ul =>
              match nested_ul with
              | NavigableString _ => []
              | Tag _ _ _ nested_children =>
                  flat_map
                    (fun nested_li =>
                       if is_tag "li" nested_li
                       then process_list_item "◦" "&nbsp;&nbsp;&nbsp;&nbsp;" nested_li
                       else [])
                    nested_children
              end)
           [] li_children
  end.

Definition escape_pipes (s : string) : string := Str.replace "|" "\|" s.

(** The text of one body cell *)
Definition cell_text (td : node) : string :=
  let top_level_lists := find_all_direct (is_tag "ul") td in
  match top_level_lists with
  | _ :: _ =>
      let bullet_content :=
        flat_map (fun ul =>
                    flat_map (process_list_item "•" "")
                             (find_all_direct (is_tag "li") ul))
                 top_level_lists in
      escape_pipes (Str.join "<br/>" bullet_content)
  | [] =>
      let cell_text := clean_text (get_text td) in
      if Str.truthy cell_text
      then escape_pipes (Str.replace Str.nl " " cell_text)
      else ""
  end.

Definition table_row (cells : list string) : string :=
  "| " +++ Str.join " | " cells +++ " |".

(** The entries that the header section adds to [rows] *)
Definition header_rows (table_element : node) : list string :=
  match find (is_tag "thead") table_element with
  | Some thead =>
      match find (is_tag "tr") thead with
      | Some header_row =>
          let headers :=
            map (fun th =>
                   let header_text := clean_text (get_text th) in
                   if Str.truthy header_text then header_text else " ")
                (find_all (is_tag_in ["th"; "td"]) header_row) in
          match headers with
          | _ :: _ =>
              [table_row headers;
               table_row (repeat "---" (List.length headers))]
          | [] => []
          end
      | None => []
      end
  | None => []
  end.

(** The entries that the body section adds to [rows] *)
Definition body_rows (table_element : node) : list string :=
  match find (is_tag "tbody") table_element with
  | Some tbody =>
      flat_map
        (fun tr =>
           let cells := map cell_text (find_all (is_tag_in ["td"; "th"]) tr) in
           match cells with
           | _ :: _ => [table_row cells]
           | [] => []
           end)
        (find_all (is_tag "tr") tbody)
  | None => []
  end.

(** The [return] of [format_table_with_bullets], from the final [rows] *)
Definition render_rows (rows : list string) : string :=
  match rows with
  | row0 :: _ =>
      Str.nl +++ "<table>" +++ Str.nl +++ "<thead>" +++ Str.nl +++ "<tr>" +++ Str.nl
      +++ Str.join Str.nl
            (map (fun h => "<th>" +++ h +++ "</th>")
                 (Str.slice_1_m1 (Str.split_char Str.pipe row0)))
      +++ Str.nl +++ "</tr>" +++ Str.nl +++ "</thead>" +++ Str.nl +++ "<tbody>" +++ Str.nl
      +++ Str.join Str.nl
            (map (fun row =>
                    "<tr>" +++ Str.nl
                    +++ Str.join Str.nl
                          (map (fun cell => "<td>" +++ cell +++ "</td>")
                               (Str.slice_1_m1 (Str.split_char Str.pipe row)))
                    +++ Str.nl +++ "</tr>")
                 (Str.slice_2 rows))
      +++ Str.nl +++ "</tbody>" +++ Str.nl +++ "</table>" +++ Str.nl
  | [] => ""
  end.

Definition format_table_with_bullets (table_element : node) : string :=
  let rows := header_rows table_element ++ body_rows table_element in
  render_rows rows.

(** ** Images *)

Definition extract_image_info (img_span : node) : string :=
  match find (is_tag "img") img_span with
  | None => ""
  | Some img_element =>
      let image_url := get "src" img_element in
      if negb (Str.truthy image_url) then "" else
      let image_url :=
        if Str.startswith "//" image_url then "https:" +++ image_url
        else if Str.startswith "/" image_url then "https://next.amboss.com" +++ image_url
        else image_url in
      let title :=
        if Str.truthy (get "title" img_element) then get "title" img_element
        else match find (fun n => is_tag "span" n && class_is "thumbnail__image__title" n)
                        img_span with
             | Some t => get_text t
             | None => ""
             end in
      let title := if Str.truthy title then title else "Medical Image" in
      "<div style=" +++ Str.dq +++ "text-align: center; margin: 20px 0;" +++ Str.dq
      +++ "><img src=" +++ Str.dq +++ image_url +++ Str.dq
      +++ " alt=" +++ Str.dq +++ title +++ Str.dq
      +++ " width=" +++ Str.dq +++ "400" +++ Str.dq
      +++ " style=" +++ Str.dq +++ "max-width: 100%; height: auto;" +++ Str.dq
      +++ "><p><em>" +++ title +++ "</em></p></div>"
  end.

(** ** The content of a section *)

Definition extract_generic_content (element : node) : string :=
  match element with
  | NavigableString _ => ""
  | Tag _ _ _ _ =>
      (* Skip if it's a complex container we already handle *)
      if is_tag "div" element
         && existsb (fun cls => in_list cls (get_class element))
                    ["table-wrapper"; "paragraph"; "merke"; "cave"; "content-box"]
      then "" else
      (* Check if it contains complex nested elements *)
      let nested_complex :=
        find_all_direct (is_tag_in ["ul"; "table"; "div"]) element in
      match nested_complex with
      | _ :: _ => ""
      | [] =>
          let text_content := clean_text (get_text element) in
          if Str.truthy text_content && Nat.ltb 10 (String.length text_content)
          then if Nat.ltb 20 (String.length text_content)
               then "<p>" +++ text_content +++ "</p>"
               else ""
          else ""
      end
  end.

(** What one child of the content container appends to [content_parts] *)
Definition content_of_child (child : node) : list string :=
  match child with
  | NavigableString _ => []
  | Tag name _ _ _ =>
      if negb (Str.truthy name) then []
      else if String.eqb name "h3" then
        let title := clean_text (get_text child) in
        if Str.truthy title then ["<h3>" +++ title +++ "</h3>"] else []
      else if String.eqb name "div" && in_list "table-wrapper" (get_class child) then
        match find (is_tag "table") child with
        | Some table =>
            let table_content := format_table_with_bullets table in
            if Str.truthy table_content then [table_content] else []
        | None => []
        end
      else if String.eqb name "ul" then
        match process_list child with
        | [] => []
        | list_content => ["<ul>"] ++ list_content ++ ["</ul>"]
        end
      else if String.eqb name "div" && in_list "paragraph" (get_class child) then
        let images :=
          find_all (fun n => is_tag "span" n && class_is "thumbnail__image" n) child in
        flat_map
          (fun img =>
             let img_content := extract_image_info img in
             if Str.truthy img_content
             then ["<div class=" +++ Str.dq +++ "image-container" +++ Str.dq +++ ">";
                   img_content; "</div>"]
             else [])
          images
        ++ match images with
           | [] =>
               let text_content := clean_text (get_text child) in
               if Str.truthy text_content then ["<p>" +++ text_content +++ "</p>"] else []
           | _ :: _ => []
           end
      else if String.eqb name "div"
              && existsb (fun cls => in_list cls (get_class child))
                         ["merke"; "cave"; "content-box"] then
        let classes := get_class child in
        let content_text := clean_text (get_text child) in
        let box kind label :=
          "<div class=" +++ Str.dq +++ "content-box " +++ kind +++ Str.dq +++ ">"
          +++ label +++ " " +++ content_text +++ "</div>" in
        if Str.truthy content_text then
          if in_list "merke" classes || in_list "green" classes
          then [box "note" "💡 **Note:**"]
          else if in_list "cave" classes || in_list "red" classes
          then [box "warning" "⚠️ **Warning:**"]
          else if in_list "blue" classes
          then [box "tip" "📝 **Tip:**"]
          else [box "note" "💡 **Note:**"]
        else []
      else if String.eqb name "p" then
        let text_content := clean_text (get_text child) in
        if Str.truthy text_content then ["<p>" +++ text_content +++ "</p>"] else []
      else
        let processed_content := extract_generic_content child in
        if Str.truthy processed_content then [processed_content] else []
  end.

Definition extract_content_from_section (section : node) : string :=
  let content_container :=
    or_else
      (find (fun n => is_tag "div" n
                      && has_attr "data-e2e-test-id" "section-content-is-shown" n) section)
      (find (fun n => is_tag "div" n
                      && has_attr "data-e2e-test-id" "section-content-is-hidden" n) section) in
  match content_container with
  | None => ""
  | Some content_container =>
      let base_content :=
        match find (fun n => is_tag "div" n
                             && class_matches (Str.contains "baseStyles") n)
                   content_container with
        | Some b => b
        | None => content_container
        end in
      Str.join Str.nl (flat_map content_of_child (children base_content))
  end.

(** ** Sections and the article title *)

(** A section dictionary, as [extract_sections] appends it: both keys are
    set by then. *)
Record section_data : Type := mk_section { title : string; content : string }.

Definition extract_article_title_from_soup (soup : node) : string :=
  (* First try: HTML title tag *)
  let first_try :=
    match find (is_tag "title") soup with
    | Some title_tag =>
        let title_text := Str.strip (get_text title_tag) in
        let title_text :=
          if Str.endswith " - AMBOSS" title_text
          then Str.strip (Str.drop_last 9 title_text) else title_text in
        if Str.truthy title_text then Some title_text else None
    | None => None
    end in
  match first_try with
  | Some title_text => title_text
  | None =>
  (* Second try: article header element *)
  let second_try :=
    match find (has_attr "data-e2e-test-id" "articleHeader") soup with
    | Some article_header =>
        let title_element :=
          or_else (find (is_tag "h1") article_header)
            (or_else (find (is_tag "h2") article_header)
               (find (class_matches (fun x => Str.contains "title" (Str.lower x)))
                     article_header)) in
        match title_element with
        | Some e => Some (clean_text (get_text e))
        | None => None
        end
    | None => None
    end in
  match second_try with
  | Some t => t
  | None =>
  (* Third try: main heading in content *)
  match heading_title (find (is_tag "h1") soup) with
  | Some title => title
  | None =>
  (* Fallback: generic title *)
  "Medical Content"
  end end end.

(** The title that [extract_sections] gives to the [i]-th section element
    ([i] counts from 0, as [enumerate] does) *)
Definition section_title (i : nat) (section : node) : string :=
  match extract_section_title_from_element section with
  | Some title => if Str.truthy title then title else "Section " +++ Str.of_nat (i + 1)
  | None => "Section " +++ Str.of_nat (i + 1)
  end.

Definition is_references (title : string) : bool :=
  Str.contains "references" (Str.lower title).

(** The loop of [extract_sections] over [enumerate(section_elements)],
    from index [i] on *)
Fixpoint extract_sections_from (i : nat) (section_elements : list node)
  : list section_data :=
  match section_elements with
  | [] => []
  | section :: rest =>
      let title := section_title i section in
      (* Skip References section *)
      if is_references title then extract_sections_from (S i) rest
      else
        let content := extract_content_from_section section in
        if Str.truthy content
        then mk_section title content :: extract_sections_from (S i) rest
        else extract_sections_from (S i) rest
  end.

Definition section_elements (soup : node) : list node :=
  find_all (fun n => is_tag "section" n
                     && has_attr "data-e2e-test-id" "section-with-header" n) soup.

Definition extract_sections (soup : node) : list section_data * string :=
  let article_title := extract_article_title_from_soup soup in
  (extract_sections_from 0 (section_elements soup), article_title).

(** ** Output formats *)

(** [enumerate(sections, 1)] *)
Fixpoint enumerate_from {A : Type} (i : nat) (l : list A) : list (nat * A) :=
  match l with
  | [] => []
  | x :: r => (i, x) :: enumerate_from (S i) r
  end.

(** [article_title] is [None] or a string; [if article_title:] *)
Definition title_given (article_title : option string) : option string :=
  match article_title with
  | Some t => if Str.truthy t then Some t else None
  | None => None
  end.

Definition _format_text (sections : list section_data) (article_title : option string)
  : string :=
  let output :=
    match title_given article_title with
    | Some t => ["# " +++ t; ""]
    | None => []
    end
    ++ flat_map
         (fun '(i, section) =>
            ["=== Section " +++ Str.of_nat i +++ ": " +++ title section +++ " ===";
             content section; ""])
         (enumerate_from 1 sections) in
  Str.join Str.nl output.

Definition _format_markdown (sections : list section_data) (article_title : option string)
  : string :=
  let output :=
    match title_given article_title with
    | Some t => ["# " +++ t; ""]
    | None => []
    end
    ++ flat_map
         (fun section => ["## " +++ title section; ""; content section; ""])
         sections in
  Str.join Str.nl output.

(** The fixed head of the HTML page, up to [<body>] *)
Definition html_head (page_title : string) : list string :=
  [
   "<!DOCTYPE html>";
   "<html lang=" +++ Str.dq +++ "en" +++ Str.dq +++ ">";
   "<head>";
   "    <meta charset=" +++ Str.dq +++ "UTF-8" +++ Str.dq +++ ">";
   "    <meta name=" +++ Str.dq +++ "viewport" +++ Str.dq +++ " content=" +++ Str.dq +++ "width=device-width, initial-scale=1.0" +++ Str.dq +++ ">";
   "    <title>" +++ page_title +++ "</title>";
   "    <style>";
   "        /* Print-friendly styles */";
   "        @media print {";
   "            body { ";
   "                font-family: 'Times New Roman', serif;";
   "                font-size: 12pt;";
   "                line-height: 1.4;";
   "                margin: 0.5in;";
   "                color: black;";
   "            }";
   "            ";
   "            /* Section-level styling */";
   "            .section {";
   "                margin-bottom: 20pt;";
   "            }";
   "            ";
   "            /* Main section titles (h2) */";
   "            .section-title {";
   "                font-size: 16pt;";
   "                font-weight: bold;";
   "                margin-top: 24pt;";
   "                margin-bottom: 12pt;";
   "                border-bottom: 2pt solid #333;";
   "                padding-bottom: 6pt;";
   "            }";
   "            ";
   "            /* Subsection titles (h3) */";
   "            h3 {";
   "                font-size: 14pt;";
   "                font-weight: bold;";
   "                margin-top: 18pt;";
   "                margin-bottom: 8pt;";
   "            }";
   "            ";
   "            /* Sub-subsection titles (h4) */";
   "            h4 {";
   "                font-size: 13pt;";
   "                font-weight: bold;";
   "                margin-top: 14pt;";
   "                margin-bottom: 6pt;";
   "            }";
   "            ";
   "            /* Content boxes */";
   "            .content-box {";
   "                border: 1pt solid #666;";
   "                padding: 8pt;";
   "                margin: 12pt 0;";
   "                background-color: #f9f9f9;";
   "            }";
   "            .note { border-left: 4pt solid #4CAF50; }";
   "            .warning { border-left: 4pt solid #f44336; }";
   "            .tip { border-left: 4pt solid #2196F3; }";
   "            .important { border-left: 4pt solid #FF9800; }";
   "            ";
   "            /* Tables */";
   "            table {";
   "                border-collapse: collapse;";
   "                width: 100%;";
   "                margin: 12pt 0;";
   "            }";
   "            th, td {";
   "                border: 1pt solid #333;";
   "                padding: 6pt;";
   "                text-align: left;";
   "                vertical-align: top;";
   "            }";
   "            th {";
   "                background-color: #f0f0f0;";
   "                font-weight: bold;";
   "            }";
   "            ";
   "            /* Images */";
   "            img {";
   "                max-width: 100%;";
   "                height: auto;";
   "                display: block;";
   "                margin: 12pt auto;";
   "            }";
   "            ";
   "            /* Image containers */";
   "            .image-container {";
   "                margin: 12pt 0;";
   "            }";
   "            ";
   "            /* Lists */";
   "            ul, ol {";
   "                margin: 8pt 0;";
   "                padding-left: 20pt;";
   "            }";
   "            ";
   "            /* Individual list items */";
   "            li {";
   "                margin: 4pt 0;";
   "            }";
   "            ";
   "            /* Nested lists */";
   "            ul ul, ol ol, ul ol, ol ul {";
   "                margin: 4pt 0;";
   "            }";
   "            ";
   "            /* Paragraphs */";
   "            p {";
   "                margin: 8pt 0;";
   "            }";
   "        }";
   "";
   "        /* Screen styles */";
   "        @media screen {";
   "            body {";
   "                font-family: -apple-system, BlinkMacSystemFont, 'Segoe UI', Roboto, sans-serif;";
   "                max-width: 800px;";
   "                margin: 0 auto;";
   "                padding: 20px;";
   "                line-height: 1.6;";
   "                background-color: #fff;";
   "            }";
   "            .section {";
   "                margin-bottom: 30px;";
   "                padding: 20px;";
   "                border-radius: 8px;";
   "                box-shadow: 0 2px 4px rgba(0,0,0,0.1);";
   "            }";
   "            .section-title {";
   "                font-size: 24px;";
   "                font-weight: bold;";
   "                margin-bottom: 15px;";
   "                color: #333;";
   "                border-bottom: 2px solid #007acc;";
   "                padding-bottom: 8px;";
   "            }";
   "            .content-box {";
   "                border-radius: 6px;";
   "                padding: 15px;";
   "                margin: 15px 0;";
   "            }";
   "            .note { ";
   "                background-color: #e8f5e8; ";
   "                border-left: 4px solid #4CAF50; ";
   "            }";
   "            .warning { ";
   "                background-color: #ffeaea; ";
   "                border-left: 4px solid #f44336; ";
   "            }";
   "            .tip { ";
   "                background-color: #e3f2fd; ";
   "                border-left: 4px solid #2196F3; ";
   "            }";
   "            .important { ";
   "                background-color: #fff3e0; ";
   "                border-left: 4px solid #FF9800; ";
   "            }";
   "";
   "            table {";
   "                border-collapse: collapse;";
   "                width: 100%;";
   "                margin: 15px 0;";
   "                box-shadow: 0 1px 3px rgba(0,0,0,0.1);";
   "            }";
   "            th, td {";
   "                border: 1px solid #ddd;";
   "                padding: 12px;";
   "                text-align: left;";
   "            }";
   "            th {";
   "                background-color: #f8f9fa;";
   "                font-weight: 600;";
   "            }";
   "            tr:nth-child(even) {";
   "                background-color: #f8f9fa;";
   "            }";
   "        }";
   "</style>";
   "</head>";
   "<body>"  ].

Definition _format_html (sections : list section_data) (article_title : option string)
  : string :=
  let page_title :=
    match title_given article_title with Some t => t | None => "AMBOSS Content" end in
  let html_parts :=
    html_head page_title
    ++ match title_given article_title with
       | Some t =>
           ["<div class=" +++ Str.dq +++ "main-title-container" +++ Str.dq
            +++ " style=" +++ Str.dq
            +++ "text-align: center; margin-bottom: 30px; border-bottom: 3px solid #007acc; padding-bottom: 15px;"
            +++ Str.dq +++ ">";
            "<h1 style=" +++ Str.dq +++ "font-size: 28pt; color: #333; margin: 0;"
            +++ Str.dq +++ ">" +++ t +++ "</h1>";
            "</div>"]
       | None => []
       end
    ++ flat_map
         (fun '(i, section) =>
            ["<div class=" +++ Str.dq +++ "section" +++ Str.dq
             +++ " id=" +++ Str.dq +++ "section-" +++ Str.of_nat i +++ Str.dq +++ ">";
             "<h2 class=" +++ Str.dq +++ "section-title" +++ Str.dq +++ ">"
             +++ title section +++ "</h2>";
             content section;
             "</div>"])
         (enumerate_from 1 sections)
    ++ ["</body>"; "</html>"] in
  Str.join Str.nl html_parts.

(** A call either returns a value or raises. *)
Inductive exn : Type := ValueError (message : string).

Inductive result (A : Type) : Type :=
| Return (value : A)
| Raise (e : exn).
Arguments Return {A} value.
Arguments Raise {A} e.

Definition format_output (sections : list section_data) (output_format : string)
           (article_title : option string) : result string :=
  if String.eqb output_format "text" then
    Return (_format_text sections article_title)
  else if String.eqb output_format "markdown" then
    Return (_format_markdown sections article_title)
  else if String.eqb output_format "html" then
    Return (_format_html sections article_title)
  else
    Raise (ValueError ("Unsupported output format: " +++ output_format)).

(** ** Notions used to state the properties *)

(** *** Sections *)

(** The section elements that pass the References test, with their
    positions *)
Definition not_skipped (sections : list (nat * node)) : list (nat * node) :=
  filter (fun '(i, section) => negb (is_references (section_title i section))) sections.

(** Content extraction on the elements it is given; the sections without
    content are left out *)
Definition with_content (sections : list (nat * node)) : list section_data :=
  flat_map
    (fun '(i, section) =>
       let content := extract_content_from_section section in
       if Str.truthy content then [mk_section (section_title i section) content] else [])
    sections.

(** *** The five strategies for a section title, one by one *)

Definition placeholder (i : nat) : string := "Section " +++ Str.of_nat (i + 1).

(** a heading inside the explicit header-marker sub-node *)
Definition header_marker_heading (section : node) : option string :=
  match find (fun n => is_tag "div" n && has_attr "data-e2e-test-id" "particle-header" n)
             section with
  | Some header_element => heading_title (find (is_tag "h3") header_element)
  | None => None
  end.

(** a heading inside a header-classed sub-node *)
Definition header_classed_heading (section : node) : option string :=
  match find (fun n => is_tag "div" n && class_matches header_keyword n) section with
  | Some header_container => heading_title (find (is_tag "h3") header_container)
  | None => None
  end.

(** any heading anywhere in the section *)
Definition any_heading (section : node) : option string :=
  heading_title (find (is_tag "h3") section).

(** a clickable or labelled control whose text is shorter than 100 *)
Definition clickable_control (section : node) : option string :=
  hd_error
    (filter (fun text => Str.truthy text && Nat.ltb (String.length text) 100)
       (map (fun n => clean_text (get_text n))
          (find_all (fun n => is_tag_in ["button"; "div"] n && class_matches button_keyword n)
                    section))).

(** a header- or title-classed element among the first ten [div]s and
    [span]s, whose text is longer than 5 and shorter than 100 *)
Definition header_like_element (section : node) : option string :=
  hd_error
    (filter (fun text => Str.truthy text && Nat.ltb 5 (String.length text)
                         && Nat.ltb (String.length text) 100)
       (map (fun n => clean_text (get_text n))
          (filter (fun n => match get_class n with
                            | [] => false
                            | _ :: _ => title_keyword (Str.join " " (get_class n))
                            end)
                  (find_all_limit 10 (is_tag_in ["div"; "span"]) section)))).

(** the first result that is a non-empty string *)
Fixpoint first_nonempty (results : list (option string)) : option string :=
  match results with
  | [] => None
  | Some t :: r => if Str.truthy t then Some t else first_nonempty r
  | None :: r => first_nonempty r
  end.

(** The title as the five-strategy rule has it *)
Definition cascade_title (i : nat) (section : node) : string :=
  match first_nonempty [header_marker_heading section; header_classed_heading section;
                        any_heading section; clickable_control section;
                        header_like_element section] with
  | Some t => t
  | None => placeholder i
  end.

(** *** List items as a tree *)

#[warnings="-register-all"] Inductive list_item : Type :=
| Item (text : string) (sub_items : list list_item).

(** The items that [process_list] keeps of a list node: one per direct
    [li], with the items kept of its first directly nested list as
    children.  Later nested lists of an item are not in it. *)
Fixpoint items_of (ul_element : node) : list list_item :=
  match ul_element with
  | NavigableString _ => []
  | Tag _ _ _ ul_children =>
      flat_map
        (fun li =>
           match li with
           | NavigableString _ => []
           | Tag _ _ _ li_children =>
               if is_tag "li" li
               then [Item (li_text li) (on_first (is_tag "ul") items_of [] li_children)]
               else []
           end)
        ul_children
  end.

(** The children of an item that come before its first nested list *)
Fixpoint before_first_ul (cs : list node) : list node :=
  match cs with
  | [] => []
  | c :: r => if is_tag "ul" c then [] else c :: before_first_ul r
  end.

(** Reading the lines of [process_list] back, depth first.  [acc] holds
    the items closed so far at the current depth, last first; [cur] is the
    item that is open; [stack] holds, for each enclosing list, the items
    closed before it and the text of the item it belongs to. *)
Inductive token : Type :=
| OpenItem (text : string)
| CloseItem
| OpenList
| CloseList
| Other.

Definition token_of (line : string) : token :=
  if String.eqb line "<ul>" then OpenList
  else if String.eqb line "</ul>" then CloseList
  else if String.eqb line "</li>" then CloseItem
  else if Str.startswith "<li>" line
       then OpenItem (substring 4 (String.length line - 4) line)
  else Other.

Fixpoint read_tokens (tokens : list token) (acc : list list_item)
         (cur : option (string * list list_item))
         (stack : list (list list_item * string)) : option (list list_item) :=
  match tokens with
  | [] =>
      match cur, stack with
      | None, [] => Some (rev acc)
      | _, _ => None
      end
  | t :: rest =>
      match t, cur, stack with
      | OpenItem text, None, _ => read_tokens rest acc (Some (text, [])) stack
      | OpenList, Some (text, []), _ => read_tokens rest [] None ((acc, text) :: stack)
      | CloseList, None, (acc', text) :: stack' =>
          read_tokens rest acc' (Some (text, rev acc)) stack'
      | CloseItem, Some (text, sub), _ => read_tokens rest (Item text sub :: acc) None stack
      | _, _, _ => None
      end
  end.

Definition read_items (lines : list string) : option (list list_item) :=
  read_tokens (map token_of lines) [] None [].

(** Reading the lines of a list, or of one item, closes the items they
    describe and leaves the rest of the input untouched. *)
Definition reads_back (lines : list string) (items : list list_item) : Prop :=
  forall rest acc stack,
    read_tokens (map token_of lines ++ rest) acc None stack
    = read_tokens rest (rev items ++ acc) None stack.

(** *** Images *)

(** The markup of an image with its address and its caption *)
Definition image_html (image_url caption : string) : string :=
  "<div style=" +++ Str.dq +++ "text-align: center; margin: 20px 0;" +++ Str.dq
  +++ "><img src=" +++ Str.dq +++ image_url +++ Str.dq
  +++ " alt=" +++ Str.dq +++ caption +++ Str.dq
  +++ " width=" +++ Str.dq +++ "400" +++ Str.dq
  +++ " style=" +++ Str.dq +++ "max-width: 100%; height: auto;" +++ Str.dq
  +++ "><p><em>" +++ caption +++ "</em></p></div>".

Definition caption_span (n : node) : bool :=
  is_tag "span" n && class_is "thumbnail__image__title" n.

(** *** Children without a rule of their own *)



(** *** Tables *)

(** The number of cells that the final step of [format_table_with_bullets]
    reads from a row: [row.split('|')[1:-1]] *)
Definition cells_read (row : string) : list string :=
  Str.slice_1_m1 (Str.split_char Str.pipe row).

(** *** What a list yields for one of its children *)

(** The lines of [process_list] for one child of the list node *)
Definition item_lines (li : node) : list string :=
  if is_tag "li" li then
    [if Str.truthy (li_text li) then "<li>" +++ li_text li else "<li>"]
    ++ match find_direct (is_tag "ul") li with
       | Some nested_ul => ["<ul>"] ++ process_list nested_ul ++ ["</ul>"]
       | None => []
       end
    ++ ["</li>"]
  else [].


(** The tree of one child of a list node: an item when the child is an
    [li], with the items of its first directly nested list below it *)
Definition item_of (li : node) : list list_item :=
  if is_tag "li" li then
    [Item (li_text li)
          (match find_direct (is_tag "ul") li with
           | Some nested_ul => items_of nested_ul
           | None => []
           end)]
  else [].

(** *** Output formats *)

(** The three format identifiers of [format_output] *)
Definition supported (output_format : string) : Prop :=
  In output_format ["text"; "markdown"; "html"].

(** ** Sample documents *)

Definition txt (s : string) : node := NavigableString s.
Definition el (name : string) (cs : list node) : node := Tag name None [] cs.
Definition marked (name marker : string) (cs : list node) : node :=
  Tag name None [("data-e2e-test-id", marker)] cs.

(** A section with a header-classed button and no heading, and a page
    that holds it *)
Definition section_with_button : node :=
  marked "section" "section-with-header"
    [Tag "button" (Some ["header"]) [] [txt "Overview"];
     marked "div" "section-content-is-shown" [el "p" [txt "Some paragraph."]]].

Definition page_with_button : node := el "[document]" [section_with_button].

(** An image with a path-absolute address and nothing to take a caption
    from *)
Definition sample_img : node := Tag "img" None [("src", "/images/heart.png")] [].
Definition sample_image : node :=
  Tag "span" (Some ["thumbnail__image"]) [] [sample_img].



(** A list item with two nested lists *)
Definition first_sublist : node := el "ul" [el "li" [txt "kept"]].
Definition second_sublist : node := el "ul" [el "li" [txt "lost"]].
Definition item_with_two_sublists : node :=
  el "li" [txt "one"; first_sublist; txt "between"; second_sublist].

(** A table with a header and one body row of two cells, the first of
    which holds the delimiter *)
Definition row_with_pipe : node := el "tr" [el "td" [txt "a|b"]; el "td" [txt "c"]].

Definition table_with_pipe : node :=
  el "table"
    [el "thead" [el "tr" [el "th" [txt "X"]; el "th" [txt "Y"]]];
     el "tbody" [row_with_pipe]].

(** A table without a header section and with three body rows *)
Definition table_without_header : node :=
  el "table"
    [el "tbody" [el "tr" [el "td" [txt "r1"]];
                 el "tr" [el "td" [txt "r2"]];
                 el "tr" [el "td" [txt "r3"]]]].

(** A page without a [title] element, whose article header holds a
    heading without text *)
Definition page_with_empty_heading : node :=
  el "[document]" [marked "div" "articleHeader" [el "h1" []]].

(** A page with a References section and a Clinical Features section *)
Definition page_with_references : node :=
  el "[document]"
    [marked "section" "section-with-header"
       [el "h3" [txt "References"];
        marked "div" "section-content-is-shown" [el "p" [txt "1. A book."]]];
     marked "section" "section-with-header"
       [el "h3" [txt "Clinical Features"];
        marked "div" "section-content-is-shown" [el "p" [txt "Fever and cough."]]]].


(** ** File names, URL lists and local files *)

(** *** Further string operations *)

Module Py.

(** Every character of the string satisfies [p] *)
Fixpoint all_chars (p : ascii -> bool) (s : string) : bool :=
  match s with
  | EmptyString => true
  | String c r => p c && all_chars p r
  end.

(** [s[:n]] *)
Fixpoint take (n : nat) (s : string) : string :=
  match n, s with
  | S k, String c r => String c (take k r)
  | _, _ => EmptyString
  end.

(** [s.lstrip(c)], [s.rstrip(c)] and [s.strip(c)] for one character *)
Fixpoint lstrip_char (x : ascii) (s : string) : string :=
  match s with
  | EmptyString => EmptyString
  | String c r => if Ascii.eqb c x then lstrip_char x r else s
  end.

Fixpoint rstrip_char (x : ascii) (s : string) : string :=
  match s with
  | EmptyString => EmptyString
  | String c r =>
      let r' := rstrip_char x r in
      if Ascii.eqb c x && negb (Str.truthy r') then EmptyString else String c r'
  end.

Definition strip_char (x : ascii) (s : string) : string :=
  rstrip_char x (lstrip_char x s).

(** [l[-1]] and [l[-2]]; [None] stands for [IndexError] *)
Definition index_m1 {A : Type} (l : list A) : option A := nth_error (rev l) 0.
Definition index_m2 {A : Type} (l : list A) : option A := nth_error (rev l) 1.

(** [f"{n:03d}"]: at least three digits, zeros in front *)
Definition zfill3 (n : nat) : string :=
  String.concat "" (repeat "0" (3 - String.length (Str.of_nat n))) +++ Str.of_nat n.

End Py.

(** *** Character classes of [re], for code points below 256 *)

Module Re.

Definition between (lo hi n : nat) : bool := Nat.leb lo n && Nat.leb n hi.

(** [\w]: letters, digits and other numeric characters, and the underscore *)
Definition word (c : ascii) : bool :=
  let n := nat_of_ascii c in
  between 48 57 n || between 65 90 n || Nat.eqb n 95 || between 97 122 n
  || Nat.eqb n 170 || between 178 179 n || Nat.eqb n 181 || between 185 186 n
  || between 188 190 n || between 192 214 n || between 216 246 n
  || between 248 255 n.

(** [\s] *)
Definition space (c : ascii) : bool := Str.isspace c.

Definition hyphen (c : ascii) : bool := Ascii.eqb c "-".

(** [[a-zA-Z0-9_-]] *)
Definition url_safe (c : ascii) : bool :=
  let n := nat_of_ascii c in
  between 97 122 n || between 65 90 n || between 48 57 n || Nat.eqb n 95
  || Nat.eqb n 45.

(** [re.sub(r'[^...]', '', s)]: the characters outside the class are removed *)
Fixpoint keep_chars (class : ascii -> bool) (s : string) : string :=
  match s with
  | EmptyString => EmptyString
  | String c r => if class c then String c (keep_chars class r) else keep_chars class r
  end.

(** [re.sub(r'[^...]', x, s)]: the characters outside the class become [x] *)
Fixpoint replace_others (class : ascii -> bool) (x : ascii) (s : string) : string :=
  match s with
  | EmptyString => EmptyString
  | String c r =>
      String (if class c then c else x) (replace_others class x r)
  end.

(** [re.sub(r'[...]+', x, s)]: every maximal run of characters of the class
    becomes one [x].  [in_run] tells that the character before belongs to a
    run that has been replaced already. *)
Fixpoint replace_runs (class : ascii -> bool) (x : ascii) (in_run : bool) (s : string)
  : string :=
  match s with
  | EmptyString => EmptyString
  | String c r =>
      if class c
      then if in_run then replace_runs class x true r
           else String x (replace_runs class x true r)
      else String c (replace_runs class x false r)
  end.

End Re.

(** *** [generate_filename] *)

Definition ext_map_get (output_format : string) : string :=
  if String.eqb output_format "text" then "txt"
  else if String.eqb output_format "markdown" then "md"
  else if String.eqb output_format "html" then "html"
  else "txt".

(** The result is [None] where the source raises [IndexError]. *)
Definition generate_filename (url : string) (index : nat) (output_format : string)
           (article_title : option string) : option string :=
  let page_name :=
    match title_given article_title with
    | Some article_title =>
        (* Use article title as primary filename component *)
        let clean_title :=
          Re.keep_chars (fun c => Re.word c || Re.space c || Re.hyphen c) article_title in
        let clean_title :=
          Re.replace_runs (fun c => Re.hyphen c || Re.space c) "_" false clean_title in
        let clean_title := Py.take 50 (Py.strip_char "_" clean_title) in
        Some (if Str.truthy clean_title then clean_title else "article")
    | None =>
        (* Fallback to URL-based name *)
        let parts := Str.split_char "/" url in
        let page_name :=
          match Py.index_m1 parts with
          | Some last => if Str.truthy last then Some last else Py.index_m2 parts
          | None => None
          end in
        match page_name with
        | Some page_name => Some (Py.take 50 (Re.replace_others Re.url_safe "_" page_name))
        | None => None
        end
    end in
  match page_name with
  | Some page_name =>
      Some ("page_" +++ Py.zfill3 index +++ "_" +++ page_name +++ "."
            +++ ext_map_get output_format)
  | None => None
  end.

(** *** [read_urls_from_file] and [scrape_local_file] *)

(** What a step that may raise comes to: a value, [FileNotFoundError], or
    any other exception, of which only [str(e)] matters. *)
Inductive outcome (A : Type) : Type :=
| Done (value : A)
| NotFound
| Failed (message : string).
Arguments Done {A} value.
Arguments NotFound {A}.
Arguments Failed {A} message.

(** The file system and the parser are outside the program.  [open_lines]
    gives the lines of a text file as iterating over it does, or [None]
    when reading fails, whatever the exception: [read_urls_from_file]
    returns an empty list for all of them.  [open_read] is opening a file
    and reading its whole text, [BeautifulSoup] is the parser; either may
    raise. *)
Section Files.

Variable open_lines : string -> option (list string).
Variable open_read : string -> outcome string.
Variable BeautifulSoup : string -> outcome node.

Definition read_urls_from_file (filename : string) : list string :=
  match open_lines filename with
  | Some f =>
      flat_map
        (fun line =>
           let line := Str.strip line in
           if Str.truthy line && negb (Str.startswith "#" line)
           then if Str.startswith "http://" line || Str.startswith "https://" line
                then [line] else []
           else [])
        f
  | None => []
  end.

(** The two [except] clauses of [scrape_local_file].  They guard the whole
    body: reading, parsing, extraction and formatting.  Extraction is the
    total function [extract_sections] and formatting raises for an
    unsupported format only. *)
Definition local_file_not_found (filepath : string) : string * option string :=
  ("Local file not found: " +++ filepath, None).

Definition local_file_error (filepath message : string) : string * option string :=
  ("Error reading local file " +++ filepath +++ ": " +++ message, None).

Definition scrape_local_file (filepath output_format : string)
  : string * option string :=
  match open_read filepath with
  | Done html_content =>
      match BeautifulSoup html_content with
      | Done soup =>
          let '(sections, article_title) := extract_sections soup in
          match sections with
          | [] => ("No content found in local file", None)
          | _ :: _ =>
              match format_output sections output_format (Some article_title) with
              | Return formatted_content => (formatted_content, Some article_title)
              | Raise (ValueError message) => local_file_error filepath message
              end
          end
      | NotFound => local_file_not_found filepath
      | Failed message => local_file_error filepath message
      end
  | NotFound => local_file_not_found filepath
  | Failed message => local_file_error filepath message
  end.

End Files.

(** The test that [scrape_multiple_urls] applies to the content it gets
    back before it counts a page as scraped and saves it *)
Definition counts_as_success (content : string) : bool :=
  Str.truthy content && negb (Str.startswith "Error" content).

(** *** Notions used to state the further properties *)

Definition newline : ascii := ascii_of_nat 10.

(** A blank is the only white space allowed *)
Definition blank_or_visible (c : ascii) : bool :=
  negb (Str.isspace c) || Ascii.eqb c " ".

(** The number of delimiters in a string that do not follow a backslash.
    [escaped] tells that the character before is a backslash. *)
Fixpoint unescaped_pipes (escaped : bool) (s : string) : nat :=
  match s with
  | EmptyString => 0
  | String c r =>
      (if Ascii.eqb c Str.pipe && negb escaped then 1 else 0)
      + unescaped_pipes (Ascii.eqb c Str.backslash) r
  end.

(** The inverse of [escape_pipes]: the backslash in front of a delimiter is
    taken away *)
Definition unescape_pipes (s : string) : string := Str.replace "\|" "|" s.

(** The section element holds a content container *)
Definition has_container (section : node) : bool :=
  match or_else
          (find (fun n => is_tag "div" n
                          && has_attr "data-e2e-test-id" "section-content-is-shown" n)
                section)
          (find (fun n => is_tag "div" n
                          && has_attr "data-e2e-test-id" "section-content-is-hidden" n)
                section) with
  | Some _ => true
  | None => false
  end.

(** The characters of a file name that need no quoting: word characters,
    the hyphen and the dot *)
Definition filename_char (c : ascii) : bool :=
  Re.word c || Re.hyphen c || Ascii.eqb c ".".

(** [deleted_from t s]: [t] is [s] with some of its characters taken out *)
Inductive deleted_from : string -> string -> Prop :=
| deleted_nil : deleted_from EmptyString EmptyString
| deleted_keep (c : ascii) (t s : string) :
    deleted_from t s -> deleted_from (String c t) (String c s)
| deleted_drop (c : ascii) (t s : string) :
    deleted_from t s -> deleted_from t (String c s).

(** A text of white space only *)
Definition blank_text : string := "  " +++ Str.nl +++ "  ".


Definition not_pipe (c : ascii) : bool := negb (Ascii.eqb c Str.pipe).

(** A body row with a list cell and a delimiter *)
Definition row_with_list : node :=
  el "tr" [el "td" [txt "a|b"];
           el "td" [el "ul" [el "li" [txt "x|y"]; el "li" [txt "z"]]]].

(** The cells of the rows that [format_table_with_bullets] takes from the
    body of a table: one list of cell nodes for each row that has cells *)
Definition body_row_cells (table_element : node) : list (list node) :=
  match find (is_tag "tbody") table_element with
  | Some tbody =>
      filter (fun cells => match cells with [] => false | _ :: _ => true end)
             (map (find_all (is_tag_in ["td"; "th"])) (find_all (is_tag "tr") tbody))
  | None => []
  end.

(** A table with list cells, delimiters and two body rows *)
Definition table_with_lists : node :=
  el "table"
    [el "tbody" [row_with_list; el "tr" []; el "tr" [el "td" [txt "c"]]]].


(** What [process_list_item] puts in front of the text of an item below
    the first level *)
Definition nested_prefix : string := "&nbsp;&nbsp;&nbsp;&nbsp;◦ ".

(** An item with items three levels down *)
Definition deep_item : node :=
  el "li" [txt "one";
           el "ul" [el "li" [txt "two";
                             el "ul" [el "li" [txt "three";
                                               el "ul" [el "li" [txt "four"]]]]]]].

Definition not_newline (c : ascii) : bool := negb (Ascii.eqb c newline).

(** A page whose declared title carries the suffix, and which also has an
    article header *)
Definition page_with_title : node :=
  el "[document]"
    [el "title" [txt "  Heart failure - AMBOSS "];
     marked "div" "articleHeader" [el "h1" [txt "Another title"]]].

(** A page whose section elements have no content container *)
Definition page_without_containers : node :=
  el "[document]"
    [marked "section" "section-with-header"
       [el "h3" [txt "Overview"]; el "p" [txt "Text outside of a container."]]].

(** A file system with one page and one list of addresses, and a parser
    that knows this page *)
Definition sample_lines (filename : string) : option (list string) :=
  if String.eqb filename "urls.txt"
  then Some ["# articles" +++ Str.nl; "  https://next.amboss.com/us/article/abc " +++ Str.nl;
             Str.nl; "ftp://example.org/x" +++ Str.nl; "http://example.org/"]
  else None.

Definition sample_read (filepath : string) : outcome string :=
  if String.eqb filepath "page.html" then Done "<html>...</html>"
  else if String.eqb filepath "pages" then Failed "[Errno 21] Is a directory: 'pages'"
  else NotFound.

Definition sample_parser (html_content : string) : outcome node :=
  Done page_with_references.


(** The text of a header cell: a blank stands for an empty one *)
Definition header_text (th : node) : string :=
  if Str.truthy (clean_text (get_text th)) then clean_text (get_text th) else " ".

(** *** The whole of a list *)




(** * Properties *)

(** ** Induction on documents *)

Lemma node_nested_ind (P : node -> Prop) :
  (forall text, P (NavigableString text)) ->
  (forall name cl at_ cs, Forall P cs -> P (Tag name cl at_ cs)) ->
  forall n, P n.
Proof.
  intros Htext Htag.
  fix IH 1.
  intros [text | name cl at_ cs].
  - apply Htext.
  - apply Htag. induction cs as [| c cs IHcs]; constructor.
    + apply IH.
    + exact IHcs.
Qed.

(** ** Searches and loops *)

Lemma on_first_find {A : Type} (p : node -> bool) (f : node -> A) (d : A) (l : list node) :
  on_first p f d l = match List.find p l with Some c => f c | None => d end.
Proof.
  induction l as [| c l IH]; simpl.
  - reflexivity.
  - destruct (p c); [reflexivity | exact IH].
Qed.

Lemma hd_error_filter {A : Type} (p : A -> bool) (l : list A) :
  hd_error (filter p l) = List.find p l.
Proof.
  induction l as [| x l IH]; simpl.
  - reflexivity.
  - destruct (p x); [reflexivity | exact IH].
Qed.

Lemma on_first_find_direct {A : Type} (p : node -> bool) (f : node -> A) (d : A)
      (n : node) :
  on_first p f d (children n)
  = match find_direct p n with Some c => f c | None => d end.
Proof.
  unfold find_direct, find_all_direct.
  rewrite hd_error_filter. apply on_first_find.
Qed.

Lemma find_first_split (p : node -> bool) (pre post : list node) (u : node) :
  forallb (fun c => negb (p c)) pre = true ->
  p u = true ->
  List.find p (pre ++ u :: post) = Some u.
Proof.
  intros Hpre Hu.
  induction pre as [| c pre IH]; simpl in *.
  - now rewrite Hu.
  - apply andb_true_iff in Hpre as [Hc Hpre].
    apply negb_true_iff in Hc. rewrite Hc. now apply IH.
Qed.

Lemma first_some_filter_map {A B : Type} (f : A -> B) (ok : B -> bool) (l : list A) :
  first_some (fun x => if ok (f x) then Some (f x) else None) l
  = hd_error (filter ok (map f l)).
Proof.
  induction l as [| x l IH]; simpl.
  - reflexivity.
  - destruct (ok (f x)); [reflexivity | exact IH].
Qed.

Lemma truthy_false (s : string) : Str.truthy s = false <-> s = "".
Proof.
  destruct s; simpl; split; intros H; try reflexivity; discriminate.
Qed.

Lemma truthy_true (s : string) : Str.truthy s = true <-> s <> "".
Proof.
  destruct s; simpl; split; intros H; try reflexivity; try discriminate.
  now contradiction H.
Qed.

Lemma heading_title_truthy (h : option node) (t : string) :
  heading_title h = Some t -> Str.truthy t = true.
Proof.
  destruct h as [n |]; simpl; [| discriminate].
  destruct (Str.truthy (clean_text (get_text n))) eqn:E; [| discriminate].
  intros [= <-]. exact E.
Qed.

(** ** Sections: titles and the References test *)

Lemma extract_sections_from_filter (l : list node) (i : nat) :
  extract_sections_from i l = with_content (not_skipped (enumerate_from i l)).
Proof.
  revert i.
  induction l as [| section rest IH]; intros i; simpl.
  - reflexivity.
  - destruct (is_references (section_title i section)); simpl.
    + apply IH.
    + destruct (Str.truthy (extract_content_from_section section)); simpl;
        now rewrite IH.
Qed.

Lemma with_content_titles (P : string -> Prop) (l : list (nat * node)) :
  Forall (fun '(i, section) => P (section_title i section)) l ->
  Forall (fun s => P (title s)) (with_content l).
Proof.
  induction 1 as [| [i section] l Hx Hl IH]; simpl.
  - constructor.
  - destruct (Str.truthy (extract_content_from_section section)); simpl.
    + constructor; [exact Hx | exact IH].
    + exact IH.
Qed.

Lemma not_skipped_titles (l : list (nat * node)) :
  Forall (fun '(i, section) => is_references (section_title i section) = false)
         (not_skipped l).
Proof.
  apply Forall_forall. intros [i section] Hin.
  apply filter_In in Hin as [_ Hin].
  now apply negb_true_iff in Hin.
Qed.

(** C1.  No section of the list that [extract_sections] returns has a
    title that contains "references" when case is ignored; and the list is
    what content extraction yields on the section elements that are left
    once those with such a title have been removed, so that content
    extraction is never run on a removed one. *)
Theorem extract_sections_skips_references (soup : node) :
  Forall (fun s => Str.contains "references" (Str.lower (title s)) = false)
         (fst (extract_sections soup))
  /\ fst (extract_sections soup)
     = with_content (not_skipped (enumerate_from 0 (section_elements soup))).
Proof.
  unfold extract_sections; simpl.
  rewrite extract_sections_from_filter.
  split; [| reflexivity].
  apply (with_content_titles (fun t => is_references t = false)).
  apply not_skipped_titles.
Qed.

Lemma hd_error_filter_true {A : Type} (p : A -> bool) (l : list A) (x : A) :
  hd_error (filter p l) = Some x -> p x = true.
Proof.
  rewrite hd_error_filter. intros H. now apply find_some in H.
Qed.

Lemma first_some_filter {A B : Type} (keep : A -> bool) (f : A -> option B) (l : list A) :
  first_some (fun x => if keep x then f x else None) l = first_some f (filter keep l).
Proof.
  induction l as [| x l IH]; simpl.
  - reflexivity.
  - destruct (keep x); simpl; [destruct (f x) |]; auto.
Qed.

Lemma clickable_control_truthy (section : node) (t : string) :
  clickable_control section = Some t -> Str.truthy t = true.
Proof.
  intros H. apply hd_error_filter_true in H.
  now apply andb_true_iff in H as [H _].
Qed.

(** The fourth and fifth strategies, as the source writes them, are the
    searches [clickable_control] and [header_like_element]. *)
Lemma strategy4_loop (section : node) :
  first_some
    (fun button =>
       let text := clean_text (get_text button) in
       if Str.truthy text && Nat.ltb (String.length text) 100 then Some text else None)
    (find_all (fun n => is_tag_in ["button"; "div"] n && class_matches button_keyword n)
              section)
  = clickable_control section.
Proof.
  unfold clickable_control.
  apply (first_some_filter_map (fun n => clean_text (get_text n))
           (fun text => Str.truthy text && Nat.ltb (String.length text) 100)).
Qed.

Lemma strategy5_loop (section : node) :
  first_some
    (fun elem =>
       match get_class elem with
       | [] => None
       | _ :: _ =>
           let classes := Str.join " " (get_class elem) in
           if title_keyword classes then
             let text := clean_text (get_text elem) in
             if Str.truthy text && Nat.ltb 5 (String.length text)
                && Nat.ltb (String.length text) 100
             then Some text else None
           else None
       end)
    (find_all_limit 10 (is_tag_in ["div"; "span"]) section)
  = header_like_element section.
Proof.
  unfold header_like_element.
  rewrite <- (first_some_filter_map (fun n => clean_text (get_text n))
                (fun text => Str.truthy text && Nat.ltb 5 (String.length text)
                             && Nat.ltb (String.length text) 100)).
  rewrite <- first_some_filter.
  generalize (find_all_limit 10 (is_tag_in ["div"; "span"]) section) as l.
  induction l as [| x l IH]; simpl; [reflexivity |].
  rewrite IH. destruct (get_class x); simpl; [reflexivity |].
  destruct (title_keyword _); reflexivity.
Qed.

Lemma header_like_element_truthy (section : node) (t : string) :
  header_like_element section = Some t -> Str.truthy t = true.
Proof.
  intros H. apply hd_error_filter_true in H.
  apply andb_true_iff in H as [H _].
  now apply andb_true_iff in H as [H _].
Qed.

(** The unused five-strategy function tries the strategies in order and
    returns the first non-empty result. *)
Lemma extract_section_title_cascade (section : node) :
  extract_section_title section
  = first_nonempty [header_marker_heading section; header_classed_heading section;
                    any_heading section; clickable_control section;
                    header_like_element section].
Proof.
  unfold extract_section_title.
  rewrite strategy4_loop, strategy5_loop.
  fold (header_marker_heading section) (header_classed_heading section)
       (any_heading section).
  unfold header_marker_heading at 1, header_classed_heading at 1.
  fold (header_marker_heading section) (header_classed_heading section).
  destruct (header_marker_heading section) as [t1 |] eqn:E1.
  { assert (Str.truthy t1 = true) as H.
    { unfold header_marker_heading in E1.
      destruct (find _ section); [| discriminate].
      now apply heading_title_truthy in E1. }
    simpl. now rewrite H. }
  destruct (header_classed_heading section) as [t2 |] eqn:E2.
  { assert (Str.truthy t2 = true) as H.
    { unfold header_classed_heading in E2.
      destruct (find _ section); [| discriminate].
      now apply heading_title_truthy in E2. }
    simpl. now rewrite H. }
  destruct (any_heading section) as [t3 |] eqn:E3.
  { apply heading_title_truthy in E3. simpl. now rewrite E3. }
  destruct (clickable_control section) as [t4 |] eqn:E4.
  { apply clickable_control_truthy in E4. simpl. now rewrite E4. }
  destruct (header_like_element section) as [t5 |] eqn:E5.
  { apply header_like_element_truthy in E5. simpl. now rewrite E5. }
  reflexivity.
Qed.

(** C4, as stated, fails.  A section without a heading but with a
    header-classed button reading "Overview" is given the positional
    placeholder by [extract_sections], where the five-strategy rule yields
    "Overview". *)
Lemma section_title_is_not_cascade :
  map title (fst (extract_sections page_with_button)) = ["Section 1"]
  /\ cascade_title 0 section_with_button = "Overview"
  /\ section_title 0 section_with_button <> cascade_title 0 section_with_button.
Proof.
  split; [vm_compute; reflexivity |].
  split; [vm_compute; reflexivity |].
  vm_compute. discriminate.
Qed.

(** C4, amended.  [extract_sections] titles a section with the cleaned
    text of the first heading anywhere in it when that text is not empty,
    and with the positional placeholder otherwise; the five strategies, in
    the stated order, are what [extract_section_title] computes, which
    [extract_sections] does not call. *)
Theorem section_title_resolution (i : nat) (section : node) :
  section_title i section
  = match first_nonempty [any_heading section] with
    | Some t => t
    | None => "Section " +++ Str.of_nat (i + 1)
    end
  /\ extract_section_title section
     = first_nonempty [header_marker_heading section; header_classed_heading section;
                       any_heading section; clickable_control section;
                       header_like_element section].
Proof.
  split; [| apply extract_section_title_cascade].
  unfold section_title, extract_section_title_from_element, any_heading.
  destruct (heading_title (find (is_tag "h3") section)) as [t |] eqn:E; simpl.
  - now destruct (Str.truthy t).
  - reflexivity.
Qed.

(** ** Output formats *)

Lemma format_output_supported (sections : list section_data) (output_format : string)
      (article_title : option string) :
  supported output_format ->
  exists s, format_output sections output_format article_title = Return s.
Proof.
  unfold supported, format_output.
  intros [<- | [<- | [<- | []]]]; simpl; eexists; reflexivity.
Qed.

Lemma format_output_unsupported (sections : list section_data) (output_format : string)
      (article_title : option string) :
  ~ supported output_format ->
  format_output sections output_format article_title
  = Raise (ValueError ("Unsupported output format: " +++ output_format)).
Proof.
  unfold supported, format_output. intros Hno.
  destruct (String.eqb_spec output_format "text") as [-> | _].
  { exfalso; apply Hno; simpl; auto. }
  destruct (String.eqb_spec output_format "markdown") as [-> | _].
  { exfalso; apply Hno; simpl; auto. }
  destruct (String.eqb_spec output_format "html") as [-> | _].
  { exfalso; apply Hno; simpl; auto. }
  reflexivity.
Qed.

(** C5.  [format_output] raises exactly when the format is none of
    "text", "markdown" and "html", and what it raises then is the
    unsupported-format error; for each of the three formats it returns a
    string, whatever the sections and the article title. *)
Theorem format_output_raises_iff (sections : list section_data) (output_format : string)
        (article_title : option string) :
  ((exists e, format_output sections output_format article_title = Raise e)
   <-> ~ supported output_format)
  /\ (~ supported output_format ->
      format_output sections output_format article_title
      = Raise (ValueError ("Unsupported output format: " +++ output_format)))
  /\ (supported output_format ->
      exists s, format_output sections output_format article_title = Return s).
Proof.
  split; [| split].
  - split.
    + intros [e He] Hs.
      destruct (format_output_supported sections output_format article_title Hs) as [s Hr].
      congruence.
    + intros Hno. eexists. now apply format_output_unsupported.
  - apply format_output_unsupported.
  - apply format_output_supported.
Qed.

Lemma format_output_raises_iff_witness :
  (exists s, format_output [mk_section "Anatomy" "<p>The heart.</p>"] "html" (Some "Heart")
             = Return s)
  /\ format_output [mk_section "Anatomy" "<p>The heart.</p>"] "pdf" (Some "Heart")
     = Raise (ValueError "Unsupported output format: pdf").
Proof.
  split.
  - apply (proj2 (proj2 (format_output_raises_iff
                           [mk_section "Anatomy" "<p>The heart.</p>"] "html" (Some "Heart")))).
    unfold supported; simpl; auto.
  - apply (proj1 (proj2 (format_output_raises_iff
                           [mk_section "Anatomy" "<p>The heart.</p>"] "pdf" (Some "Heart")))).
    unfold supported; simpl.
    intros [H | [H | [H | []]]]; discriminate H.
Defined.

(** ** Images *)

Lemma image_html_eq (img_span : node) (img : node) :
  find (is_tag "img") img_span = Some img ->
  get "src" img <> "" ->
  extract_image_info img_span
  = image_html
      (if Str.startswith "//" (get "src" img) then "https:" +++ get "src" img
       else if Str.startswith "/" (get "src" img)
            then "https://next.amboss.com" +++ get "src" img
            else get "src" img)
      (if Str.truthy (get "title" img) then get "title" img
       else match find caption_span img_span with
            | Some t => if Str.truthy (get_text t) then get_text t else "Medical Image"
            | None => "Medical Image"
            end).
Proof.
  intros Himg Hsrc.
  unfold extract_image_info. rewrite Himg.
  apply truthy_true in Hsrc. rewrite Hsrc. simpl negb. cbv iota.
  fold (caption_span).
  unfold image_html.
  destruct (Str.truthy (get "title" img)) eqn:Et.
  - rewrite Et. reflexivity.
  - change (fun n : node => is_tag "span" n && class_is "thumbnail__image__title" n)
      with caption_span.
    destruct (find caption_span img_span) as [t |].
    + destruct (Str.truthy (get_text t)); reflexivity.
    + reflexivity.
Qed.

Lemma startswith_slashes (s : string) :
  Str.startswith "//" s = true -> Str.startswith "/" s = true.
Proof.
  destruct s as [| c s]; [intros H; exact H |].
  change (Ascii.eqb "/" c && Str.startswith "/" s = true
          -> Ascii.eqb "/" c && true = true).
  destruct (Ascii.eqb "/" c); [reflexivity | intros H; exact H].
Qed.

(** C8.  Without an [img] below the node, or without a non-empty [src]
    on it, the result is empty.  Otherwise the result is the image markup
    for an address and a caption such that: an [src] that starts with "//"
    gets "https:" in front; one that starts with "/" only gets
    "https://next.amboss.com" in front; any other is kept; the caption is
    the [title] attribute when it is not empty, else the text of the
    caption element when there is one with a non-empty text, else
    "Medical Image". *)
Theorem extract_image_info_rule (img_span : node) :
  (find (is_tag "img") img_span = None -> extract_image_info img_span = "")
  /\ forall img, find (is_tag "img") img_span = Some img ->
       (get "src" img = "" -> extract_image_info img_span = "")
       /\ (get "src" img <> "" ->
           exists url caption,
             extract_image_info img_span = image_html url caption
             /\ (Str.startswith "//" (get "src" img) = true ->
                 url = "https:" +++ get "src" img)
             /\ (Str.startswith "//" (get "src" img) = false ->
                 Str.startswith "/" (get "src" img) = true ->
                 url = "https://next.amboss.com" +++ get "src" img)
             /\ (Str.startswith "/" (get "src" img) = false -> url = get "src" img)
             /\ (get "title" img <> "" -> caption = get "title" img)
             /\ (get "title" img = "" ->
                 forall t, find caption_span img_span = Some t ->
                           get_text t <> "" -> caption = get_text t)
             /\ (get "title" img = "" ->
                 (forall t, find caption_span img_span = Some t -> get_text t = "") ->
                 caption = "Medical Image")).
Proof.
  split.
  { intros Hnone. unfold extract_image_info. now rewrite Hnone. }
  intros img Himg. split.
  { intros Hsrc. unfold extract_image_info. rewrite Himg, Hsrc. reflexivity. }
  intros Hsrc.
  eexists. eexists. split; [apply (image_html_eq img_span img Himg Hsrc) |].
  repeat split.
  - intros H. now rewrite H.
  - intros H1 H2. now rewrite H1, H2.
  - intros H.
    destruct (Str.startswith "//" (get "src" img)) eqn:E; [| now rewrite H].
    apply startswith_slashes in E. congruence.
  - intros H. apply truthy_true in H. now rewrite H.
  - intros H t Ht Htext. apply truthy_false in H. rewrite H, Ht.
    apply truthy_true in Htext. now rewrite Htext.
  - intros H Hcap. apply truthy_false in H. rewrite H.
    destruct (find caption_span img_span) as [t |]; [| reflexivity].
    specialize (Hcap t eq_refl). apply truthy_false in Hcap. now rewrite Hcap.
Qed.

Lemma extract_image_info_rule_witness :
  extract_image_info sample_image
  = image_html "https://next.amboss.com/images/heart.png" "Medical Image".
Proof.
  destruct (proj2 (extract_image_info_rule sample_image) sample_img eq_refl)
    as [_ Hsome].
  destruct Hsome as (url & caption & Hout & _ & Hurl & _ & _ & _ & Hcap).
  - discriminate.
  - rewrite Hout.
    rewrite (Hurl eq_refl eq_refl).
    rewrite (Hcap eq_refl); [reflexivity |].
    intros t Ht. vm_compute in Ht. discriminate Ht.
Defined.

(** ** Children without a rule of their own *)






(** ** Lists *)

Lemma process_list_eq (name : string) (cl : option (list string))
      (at_ : list (string * string)) (cs : list node) :
  process_list (Tag name cl at_ cs) = flat_map item_lines cs.
Proof.
  simpl. apply flat_map_ext. intros li.
  unfold item_lines.
  destruct li as [text | n c a lcs]; [reflexivity |].
  rewrite <- (on_first_find_direct (is_tag "ul")
                (fun nested_ul => ["<ul>"] ++ process_list nested_ul ++ ["</ul>"])
                [] (Tag n c a lcs)).
  reflexivity.
Qed.

Lemma process_list_item_eq (bullet_char indent : string) (li : node) :
  process_list_item bullet_char indent li
  = match li with
    | NavigableString _ => []
    | Tag _ _ _ _ =>
        (if Str.truthy (li_text li)
         then [indent +++ bullet_char +++ " " +++ li_text li] else [])
        ++ match find_direct (is_tag "ul") li with
           | Some nested_ul =>
               flat_map (process_list_item "◦" "&nbsp;&nbsp;&nbsp;&nbsp;")
                        (find_all_direct (is_tag "li") nested_ul)
           | None => []
           end
    end.
Proof.
  destruct li as [text | n c a lcs]; [reflexivity |].
  simpl process_list_item.
  f_equal.
  rewrite (on_first_find_direct (is_tag "ul") _ [] (Tag n c a lcs)).
  destruct (find_direct (is_tag "ul") (Tag n c a lcs)) as [u |]; [| reflexivity].
  destruct u as [text | n' c' a' ucs]; [reflexivity |].
  unfold find_all_direct; simpl children.
  induction ucs as [| x ucs IH]; simpl; [reflexivity |].
  rewrite IH. destruct (is_tag "li" x); simpl; [reflexivity |].
  reflexivity.
Qed.

Lemma li_text_parts_cut (pre post : list node) (u : node) :
  is_tag "ul" u = true ->
  li_text_parts (pre ++ u :: post) = li_text_parts (before_first_ul pre).
Proof.
  intros Hu.
  induction pre as [| c pre IH]; simpl.
  - now rewrite Hu.
  - destruct (is_tag "ul" c) eqn:E; simpl.
    + reflexivity.
    + rewrite E. now rewrite IH.
Qed.

Lemma li_text_cut (name : string) (cl : option (list string))
      (at_ : list (string * string)) (pre post : list node) (u : node) :
  is_tag "ul" u = true ->
  li_text (Tag name cl at_ (pre ++ u :: post)) = li_text (Tag name cl at_ (pre ++ [u])).
Proof.
  intros Hu. unfold li_text; simpl children.
  now rewrite !(li_text_parts_cut pre _ u Hu).
Qed.

Lemma find_direct_first (name : string) (cl : option (list string))
      (at_ : list (string * string)) (p : node -> bool) (pre post : list node) (u : node) :
  forallb (fun c => negb (p c)) pre = true ->
  p u = true ->
  find_direct p (Tag name cl at_ (pre ++ u :: post)) = Some u.
Proof.
  intros Hpre Hu. unfold find_direct, find_all_direct; simpl children.
  rewrite hd_error_filter. now apply find_first_split.
Qed.

Lemma item_lines_first_sublist (cl : option (list string)) (at_ : list (string * string))
      (pre post : list node) (u : node) :
  forallb (fun c => negb (is_tag "ul" c)) pre = true ->
  is_tag "ul" u = true ->
  item_lines (Tag "li" cl at_ (pre ++ u :: post))
  = [if Str.truthy (li_text (Tag "li" cl at_ (pre ++ [u])))
     then "<li>" +++ li_text (Tag "li" cl at_ (pre ++ [u])) else "<li>"]
    ++ ["<ul>"] ++ process_list u ++ ["</ul>"] ++ ["</li>"].
Proof.
  intros Hpre Hu. unfold item_lines.
  change (is_tag "li" (Tag "li" cl at_ (pre ++ u :: post))) with true. cbv iota.
  rewrite (find_direct_first "li" cl at_ (is_tag "ul") pre post u Hpre Hu).
  rewrite (li_text_cut "li" cl at_ pre post u Hu).
  now rewrite <- !app_assoc.
Qed.

(** C10.  Let a list item have a nested list [u] with no nested list
    before it among its children, and any children [post] after it, among
    them further nested lists.  In [process_list] the item yields its
    opening line, then the lines of [u] between "<ul>" and "</ul>", then
    its closing line, and the list that holds the item yields the same
    lines as with [post] removed.  In a table cell, [process_list_item]
    yields the line of the item followed by the lines of the items of [u],
    again the same as with [post] removed. *)
Theorem only_first_sublist_kept (cl : option (list string)) (at_ : list (string * string))
        (pre post : list node) (u : node) :
  forallb (fun c => negb (is_tag "ul" c)) pre = true ->
  is_tag "ul" u = true ->
  (forall name cl' at' before after,
      process_list (Tag name cl' at' (before ++ Tag "li" cl at_ (pre ++ u :: post) :: after))
      = process_list (Tag name cl' at' before)
        ++ ([if Str.truthy (li_text (Tag "li" cl at_ (pre ++ [u])))
             then "<li>" +++ li_text (Tag "li" cl at_ (pre ++ [u])) else "<li>"]
            ++ ["<ul>"] ++ process_list u ++ ["</ul>"] ++ ["</li>"])
        ++ process_list (Tag name cl' at' after)
      /\ process_list (Tag name cl' at' (before ++ Tag "li" cl at_ (pre ++ u :: post) :: after))
         = process_list (Tag name cl' at' (before ++ Tag "li" cl at_ (pre ++ [u]) :: after)))
  /\ (forall bullet_char indent,
         process_list_item bullet_char indent (Tag "li" cl at_ (pre ++ u :: post))
         = (if Str.truthy (li_text (Tag "li" cl at_ (pre ++ [u])))
            then [indent +++ bullet_char +++ " " +++ li_text (Tag "li" cl at_ (pre ++ [u]))]
            else [])
           ++ flat_map (process_list_item "◦" "&nbsp;&nbsp;&nbsp;&nbsp;")
                       (find_all_direct (is_tag "li") u)
         /\ process_list_item bullet_char indent (Tag "li" cl at_ (pre ++ u :: post))
            = process_list_item bullet_char indent (Tag "li" cl at_ (pre ++ [u]))).
Proof.
  intros Hpre Hu. split.
  - intros name cl' at' before after.
    rewrite !process_list_eq, !flat_map_app. cbn [flat_map].
    rewrite (item_lines_first_sublist cl at_ pre post u Hpre Hu).
    rewrite (item_lines_first_sublist cl at_ pre [] u Hpre Hu).
    split; reflexivity.
  - intros bullet_char indent.
    rewrite !process_list_item_eq.
    rewrite (find_direct_first "li" cl at_ (is_tag "ul") pre post u Hpre Hu).
    rewrite (find_direct_first "li" cl at_ (is_tag "ul") pre [] u Hpre Hu).
    rewrite (li_text_cut "li" cl at_ pre post u Hu).
    split; reflexivity.
Qed.

Lemma only_first_sublist_kept_witness :
  process_list (el "ul" [item_with_two_sublists])
  = ["<li>one"; "<ul>"; "<li>kept"; "</li>"; "</ul>"; "</li>"]
  /\ process_list_item "•" "" item_with_two_sublists
     = ["• one"; "&nbsp;&nbsp;&nbsp;&nbsp;◦ kept"].
Proof.
  pose proof (only_first_sublist_kept None [] [txt "one"] [txt "between"; second_sublist]
                first_sublist eq_refl eq_refl) as [Hlist Hcell].
  split.
  - exact (proj1 (Hlist "ul" None [] [] [])).
  - exact (proj1 (Hcell "•" "")).
Defined.


Lemma items_of_eq (name : string) (cl : option (list string))
      (at_ : list (string * string)) (cs : list node) :
  items_of (Tag name cl at_ cs) = flat_map item_of cs.
Proof.
  simpl. apply flat_map_ext. intros li.
  unfold item_of.
  destruct li as [text | n c a lcs]; [reflexivity |].
  rewrite <- (on_first_find_direct (is_tag "ul") items_of [] (Tag n c a lcs)).
  reflexivity.
Qed.

Lemma substring_all (s : string) : substring 0 (String.length s) s = s.
Proof.
  induction s as [| c s IH]; simpl; [reflexivity | now rewrite IH].
Qed.

Lemma token_of_item (t : string) : token_of ("<li>" +++ t) = OpenItem t.
Proof.
  unfold token_of. cbn. now rewrite Nat.sub_0_r, substring_all.
Qed.

Lemma item_line (t : string) :
  (if Str.truthy t then "<li>" +++ t else "<li>") = "<li>" +++ t.
Proof. now destruct t. Qed.

Lemma reads_back_nil : reads_back [] [].
Proof. intros rest acc stack. reflexivity. Qed.

Lemma reads_back_app (l1 l2 : list string) (i1 i2 : list list_item) :
  reads_back l1 i1 -> reads_back l2 i2 -> reads_back (l1 ++ l2) (i1 ++ i2).
Proof.
  intros H1 H2 rest acc stack.
  rewrite map_app, <- app_assoc, H1, H2, rev_app_distr, <- app_assoc.
  reflexivity.
Qed.

Lemma reads_back_leaf (t : string) :
  reads_back ["<li>" +++ t; "</li>"] [Item t []].
Proof.
  intros rest acc stack.
  cbn [map app]. rewrite token_of_item. reflexivity.
Qed.

Lemma reads_back_nested (t : string) (lines : list string) (items : list list_item) :
  reads_back lines items ->
  reads_back (["<li>" +++ t] ++ (["<ul>"] ++ lines ++ ["</ul>"]) ++ ["</li>"])
             [Item t items].
Proof.
  intros H rest acc stack.
  cbn [map app]. rewrite token_of_item.
  rewrite map_app.
  change (token_of "<ul>") with OpenList.
  cbn [read_tokens].
  rewrite map_app, <- !app_assoc. rewrite H.
  cbn [map app]. change (token_of "</ul>") with CloseList.
  change (token_of "</li>") with CloseItem.
  cbn [read_tokens]. rewrite app_nil_r, rev_involutive. reflexivity.
Qed.

Lemma reads_back_flat_map (cs : list node) :
  Forall (fun c => reads_back (item_lines c) (item_of c)) cs ->
  reads_back (flat_map item_lines cs) (flat_map item_of cs).
Proof.
  induction 1 as [| c cs Hc Hcs IH]; simpl.
  - apply reads_back_nil.
  - now apply reads_back_app.
Qed.

Lemma reads_back_node (n : node) :
  reads_back (process_list n) (items_of n)
  /\ reads_back (item_lines n) (item_of n).
Proof.
  induction n as [text | name cl at_ cs IH] using node_nested_ind.
  - split; apply reads_back_nil.
  - split.
    + rewrite process_list_eq, items_of_eq.
      apply reads_back_flat_map.
      eapply Forall_impl; [| exact IH]. intros c [_ Hc]. exact Hc.
    + unfold item_lines, item_of.
      destruct (is_tag "li" (Tag name cl at_ cs)); [| apply reads_back_nil].
      rewrite item_line.
      destruct (find_direct (is_tag "ul") (Tag name cl at_ cs)) as [u |] eqn:Eu.
      * apply reads_back_nested.
        unfold find_direct, find_all_direct in Eu. rewrite hd_error_filter in Eu.
        apply find_some in Eu as [Hin _]. simpl in Hin.
        rewrite Forall_forall in IH. now apply IH.
      * apply reads_back_leaf.
Qed.









Example process_list_read_back :
  read_items (process_list (el "ul" [item_with_two_sublists; el "li" [txt "two"]]))
  = Some [Item "one" [Item "kept" []]; Item "two" []].
Proof. vm_compute. reflexivity. Qed.

(** ** Tables *)

(** C2.  The code escapes the delimiter in the text of a body cell, but
    its last step splits each row on every delimiter, escaped or not.  On
    a table whose one body row has the two cells "a|b" and "c", the row is
    "| a\|b | c |", three cells are read from it, and the result holds
    three [td] elements for the row. *)
Theorem escaped_pipe_splits_cell :
  List.length (find_all (is_tag_in ["td"; "th"]) row_with_pipe) = 2
  /\ body_rows table_with_pipe = ["| a\|b | c |"]
  /\ cells_read "| a\|b | c |" = [" a\"; "b "; " c "]
  /\ format_table_with_bullets table_with_pipe
     = Str.join Str.nl
         [""; "<table>"; "<thead>"; "<tr>"; "<th> X </th>"; "<th> Y </th>"; "</tr>";
          "</thead>"; "<tbody>"; "<tr>"; "<td> a\</td>"; "<td>b </td>"; "<td> c </td>";
          "</tr>"; "</tbody>"; "</table>"; ""].
Proof.
  repeat split; vm_compute; reflexivity.
Qed.

(** C3.  On a table without a header section and with the three body rows
    "r1", "r2" and "r3", no header row is added to the rows and the three
    body rows are; but the result presents "r1" as the header, leaves "r2"
    out and keeps "r3" as the only body row. *)
Theorem headerless_table_loses_rows :
  header_rows table_without_header = []
  /\ body_rows table_without_header = ["| r1 |"; "| r2 |"; "| r3 |"]
  /\ format_table_with_bullets table_without_header
     = Str.join Str.nl
         [""; "<table>"; "<thead>"; "<tr>"; "<th> r1 </th>"; "</tr>"; "</thead>";
          "<tbody>"; "<tr>"; "<td> r3 </td>"; "</tr>"; "</tbody>"; "</table>"; ""].
Proof.
  repeat split; vm_compute; reflexivity.
Qed.

(** ** The article title *)

(** C7.  On a page without a [title] element whose article header holds a
    heading without text, the result is the empty string: the second
    attempt returns the cleaned text of the heading without testing it,
    where the first and the third attempt go on to the next one. *)
Theorem empty_header_heading_is_returned :
  extract_article_title_from_soup page_with_empty_heading = "".
Proof. vm_compute. reflexivity. Qed.

(** ** Scenarios *)

Example references_section_is_dropped :
  map title (fst (extract_sections page_with_references)) = ["Clinical Features"].
Proof. vm_compute. reflexivity. Qed.

Example list_in_table_cell :
  body_rows
    (el "table"
       [el "tbody"
          [el "tr" [el "td" [txt "Cause"];
                    el "td" [el "ul" [el "li" [txt "first"]; el "li" [txt "second"]]]]]])
  = ["| Cause | • first<br/>• second |"].
Proof. vm_compute. reflexivity. Qed.

Example clean_text_markers :
  clean_text "  Heart [1][23] failure   Notes " = "Heart  failure".
Proof. vm_compute. reflexivity. Qed.

Example text_output :
  format_output [mk_section "Anatomy" "<p>The heart.</p>"] "text" (Some "Heart")
  = Return (Str.join Str.nl ["# Heart"; ""; "=== Section 1: Anatomy ===";
                             "<p>The heart.</p>"; ""]).
Proof. vm_compute. reflexivity. Qed.

Example get_text_leaves_scripts_out :
  Soup.get_text (el "div" [txt "a"; el "script" [txt "var x;"]; el "b" [txt "c"]]) = "ac"
  /\ Soup.get_text (el "script" [txt "var x;"]) = "var x;".
Proof. split; reflexivity. Qed.

Example split_ws_ex : Str.split_ws "  a b   c " = ["a"; "b"; "c"].
Proof. reflexivity. Qed.
Example split_char_ex : Str.split_char Str.pipe "| a | b |" = [""; " a "; " b "; ""].
Proof. reflexivity. Qed.
Example strip_ex : Str.strip "  a b  " = "a b".
Proof. reflexivity. Qed.
Example replace_ex : Str.replace "aa" "b" "aaaxaa" = "baxb".
Proof. reflexivity. Qed.
Example endswith_ex : Str.endswith " - AMBOSS" "Heart - AMBOSS" = true.
Proof. reflexivity. Qed.
Example drop_last_ex : Str.drop_last 9 "Heart - AMBOSS" = "Heart".
Proof. reflexivity. Qed.
Example lower_ex : Str.lower "ReFerences 1" = "references 1".
Proof. reflexivity. Qed.
Example of_nat_ex : Str.of_nat 12 = "12".
Proof. reflexivity. Qed.

(** * Further properties *)

(** ** Strings *)

Lemma append_empty_r (s : string) : s +++ "" = s.
Proof. induction s as [| c s IH]; simpl; [reflexivity | now rewrite IH]. Qed.

Lemma append_assoc (s t u : string) : (s +++ t) +++ u = s +++ t +++ u.
Proof. induction s as [| c s IH]; simpl; [reflexivity | now rewrite IH]. Qed.

Lemma length_append (s t : string) :
  String.length (s +++ t) = String.length s + String.length t.
Proof. induction s as [| c s IH]; simpl; [reflexivity | now rewrite IH]. Qed.

Lemma all_chars_append (p : ascii -> bool) (s t : string) :
  Py.all_chars p (s +++ t) = Py.all_chars p s && Py.all_chars p t.
Proof.
  induction s as [| c s IH]; simpl; [reflexivity |].
  now rewrite IH, andb_assoc.
Qed.

Lemma all_chars_impl (p q : ascii -> bool) (s : string) :
  (forall c, p c = true -> q c = true) ->
  Py.all_chars p s = true -> Py.all_chars q s = true.
Proof.
  intros Hpq. induction s as [| c s IH]; simpl; [reflexivity |].
  intros H. apply andb_true_iff in H as [Hc Hs].
  now rewrite (Hpq c Hc), IH.
Qed.

Lemma all_chars_join (p : ascii -> bool) (sep : string) (l : list string) :
  Py.all_chars p sep = true ->
  Forall (fun s => Py.all_chars p s = true) l ->
  Py.all_chars p (Str.join sep l) = true.
Proof.
  intros Hsep. unfold Str.join.
  induction 1 as [| x l Hx Hl IH]; simpl; [reflexivity |].
  destruct l as [| y l]; [exact Hx |].
  now rewrite !all_chars_append, Hx, Hsep, IH.
Qed.

Lemma length_join_cons (sep x : string) (l : list string) :
  String.length (Str.join sep (x :: l))
  <= String.length x + String.length sep + String.length (Str.join sep l).
Proof.
  unfold Str.join. cbn [String.concat].
  destruct l as [| y l]; [lia |].
  rewrite !length_append. lia.
Qed.

(** *** Strings with characters taken out *)

Lemma deleted_from_refl (s : string) : deleted_from s s.
Proof. induction s; constructor; assumption. Qed.

Lemma deleted_from_empty (s : string) : deleted_from "" s.
Proof. induction s; constructor; assumption. Qed.

Lemma deleted_from_trans (s t u : string) :
  deleted_from s t -> deleted_from t u -> deleted_from s u.
Proof.
  intros Hst Htu. revert s Hst.
  induction Htu as [| c t u Htu IH | c t u Htu IH]; intros s Hst.
  - exact Hst.
  - inversion Hst; subst.
    + constructor. now apply IH.
    + apply deleted_drop. now apply IH.
  - apply deleted_drop. now apply IH.
Qed.

Lemma deleted_from_all_chars (p : ascii -> bool) (t s : string) :
  deleted_from t s -> Py.all_chars p s = true -> Py.all_chars p t = true.
Proof.
  induction 1 as [| c t s H IH | c t s H IH]; simpl; intros Hs.
  - reflexivity.
  - apply andb_true_iff in Hs as [Hc Hs]. now rewrite Hc, IH.
  - apply andb_true_iff in Hs as [_ Hs]. now apply IH.
Qed.

Lemma deleted_from_length (t s : string) :
  deleted_from t s -> String.length t <= String.length s.
Proof. induction 1; simpl; lia. Qed.

Lemma lstrip_deleted (s : string) : deleted_from (Str.lstrip s) s.
Proof.
  induction s as [| c s IH]; simpl; [constructor |].
  destruct (Str.isspace c); [now constructor | apply deleted_from_refl].
Qed.

Lemma rstrip_deleted (s : string) : deleted_from (Str.rstrip s) s.
Proof.
  induction s as [| c s IH]; simpl; [constructor |].
  destruct (Str.isspace c && negb (Str.truthy (Str.rstrip s))).
  - apply deleted_from_empty.
  - now constructor.
Qed.

Lemma strip_deleted (s : string) : deleted_from (Str.strip s) s.
Proof.
  unfold Str.strip.
  eapply deleted_from_trans; [apply rstrip_deleted | apply lstrip_deleted].
Qed.

Lemma sub_refs_from_deleted (s : string) (skip : nat) :
  deleted_from (sub_refs_from skip s) s.
Proof.
  revert skip. induction s as [| c s IH]; intros skip; [constructor |].
  cbn [sub_refs_from].
  destruct skip as [| k]; [| now constructor].
  destruct (ref_match (String c s)); now constructor.
Qed.

Lemma remove_from_deleted (old s : string) (skip : nat) :
  deleted_from (Str.replace_from old "" skip s) s.
Proof.
  revert skip. induction s as [| c s IH]; intros skip; [constructor |].
  cbn [Str.replace_from].
  destruct skip as [| k]; [| now constructor].
  destruct (Str.truthy old && Str.startswith old (String c s)).
  - cbn [String.append]. now constructor.
  - now constructor.
Qed.

Lemma remove_unwanted_deleted (l : list string) (s : string) :
  deleted_from (fold_left (fun t unwanted => Str.replace unwanted "" t) l s) s.
Proof.
  revert s. induction l as [| u l IH]; intros s; simpl.
  - apply deleted_from_refl.
  - eapply deleted_from_trans; [apply IH | apply remove_from_deleted].
Qed.

(** What [clean_text] does after the white space has been normalized *)
Lemma clean_text_deleted (text : string) :
  deleted_from (clean_text text) (Str.join " " (Str.split_ws text)).
Proof.
  unfold clean_text.
  destruct (Str.truthy text); simpl negb; cbv iota.
  - eapply deleted_from_trans; [apply strip_deleted |].
    eapply deleted_from_trans; [apply remove_unwanted_deleted |].
    apply sub_refs_from_deleted.
  - apply deleted_from_empty.
Qed.

(** *** White space *)

Lemma split_ws_from_words (s cur : string) :
  Py.all_chars (fun c => negb (Str.isspace c)) cur = true ->
  Forall (fun w => Py.all_chars (fun c => negb (Str.isspace c)) w = true)
         (Str.split_ws_from cur s).
Proof.
  revert cur. induction s as [| c s IH]; intros cur Hcur; simpl.
  - destruct (Str.truthy cur); [constructor; [exact Hcur | constructor] | constructor].
  - destruct (Str.isspace c) eqn:Ec.
    + apply Forall_app. split.
      * destruct (Str.truthy cur); [constructor; [exact Hcur | constructor] | constructor].
      * now apply IH.
    + apply IH. rewrite all_chars_append, Hcur. simpl. now rewrite Ec.
Qed.

Lemma split_ws_from_length (s cur : string) :
  String.length (Str.join " " (Str.split_ws_from cur s))
  <= String.length cur + String.length s.
Proof.
  revert cur. induction s as [| c s IH]; intros cur; simpl Str.split_ws_from.
  - destruct (Str.truthy cur); simpl; lia.
  - destruct (Str.isspace c).
    + specialize (IH ""). simpl String.length in *.
      destruct (Str.truthy cur); simpl app.
      * pose proof (length_join_cons " " cur (Str.split_ws_from "" s)) as H.
        change (String.length " ") with 1 in H. lia.
      * lia.
    + specialize (IH (cur +++ String c "")).
      rewrite length_append in IH. simpl String.length in *. lia.
Qed.

Lemma split_ws_from_blank (s : string) :
  Py.all_chars Str.isspace s = true -> Str.split_ws_from "" s = [].
Proof.
  induction s as [| c s IH]; simpl; [reflexivity |].
  intros H. apply andb_true_iff in H as [Hc Hs].
  rewrite Hc. simpl. now apply IH.
Qed.

Lemma normalized_blanks (text : string) :
  Py.all_chars blank_or_visible (Str.join " " (Str.split_ws text)) = true.
Proof.
  apply all_chars_join; [reflexivity |].
  eapply Forall_impl; [| apply (split_ws_from_words text ""); reflexivity].
  intros w Hw. eapply all_chars_impl; [| exact Hw].
  intros c Hc. unfold blank_or_visible. now rewrite Hc.
Qed.

Lemma clean_text_blank_or_visible (text : string) :
  Py.all_chars blank_or_visible (clean_text text) = true.
Proof.
  eapply deleted_from_all_chars; [apply clean_text_deleted | apply normalized_blanks].
Qed.

Lemma replace_newline_id (s : string) :
  Py.all_chars blank_or_visible s = true -> Str.replace Str.nl " " s = s.
Proof.
  unfold Str.replace.
  induction s as [| c s IH]; [reflexivity |].
  cbn [Py.all_chars Str.replace_from]. intros H.
  apply andb_true_iff in H as [Hc Hs].
  assert (Str.truthy Str.nl && Str.startswith Str.nl (String c s) = false) as ->.
  { cbn [Str.truthy Str.nl Str.startswith andb].
    destruct (Ascii.eqb_spec (ascii_of_nat 10) c) as [<- | _]; [discriminate Hc | reflexivity]. }
  now rewrite IH.
Qed.

Lemma rstrip_idempotent (s : string) : Str.rstrip (Str.rstrip s) = Str.rstrip s.
Proof.
  induction s as [| c s IH]; [reflexivity |].
  cbn [Str.rstrip].
  destruct (Str.isspace c && negb (Str.truthy (Str.rstrip s))) eqn:E; [reflexivity |].
  cbn [Str.rstrip]. now rewrite IH, E.
Qed.

Lemma lstrip_head (s : string) :
  match Str.lstrip s with
  | EmptyString => True
  | String c _ => Str.isspace c = false
  end.
Proof.
  induction s as [| c s IH]; simpl; [exact I |].
  destruct (Str.isspace c) eqn:E; [exact IH | exact E].
Qed.

Lemma lstrip_strip (s : string) : Str.lstrip (Str.strip s) = Str.strip s.
Proof.
  unfold Str.strip.
  pose proof (lstrip_head s) as H.
  destruct (Str.lstrip s) as [| c r]; [reflexivity |].
  cbn [Str.rstrip]. rewrite H. cbn [andb Str.lstrip]. now rewrite H.
Qed.

Lemma rstrip_strip (s : string) : Str.rstrip (Str.strip s) = Str.strip s.
Proof. unfold Str.strip. apply rstrip_idempotent. Qed.

Lemma strip_idempotent (s : string) : Str.strip (Str.strip s) = Str.strip s.
Proof.
  unfold Str.strip at 1. now rewrite lstrip_strip, rstrip_strip.
Qed.

Lemma clean_text_is_stripped (text : string) :
  exists s, clean_text text = Str.strip s.
Proof.
  unfold clean_text.
  destruct (Str.truthy text); simpl negb; cbv iota.
  - eexists. reflexivity.
  - now exists "".
Qed.

(** ** [clean_text] *)

(** X1.  The only white space in a cleaned text is the blank: line breaks
    and tabs never survive.  So the replacement of line breaks by blanks
    that [format_table_with_bullets] applies to the cleaned text of a cell
    changes nothing. *)
Theorem clean_text_single_line (text : string) :
  Py.all_chars blank_or_visible (clean_text text) = true
  /\ Str.replace Str.nl " " (clean_text text) = clean_text text.
Proof.
  split.
  - apply clean_text_blank_or_visible.
  - apply replace_newline_id, clean_text_blank_or_visible.
Qed.

(** X2.  A cleaned text has no white space at its start and none at its
    end. *)
Theorem clean_text_stripped (text : string) :
  Str.lstrip (clean_text text) = clean_text text
  /\ Str.rstrip (clean_text text) = clean_text text.
Proof.
  destruct (clean_text_is_stripped text) as [s ->].
  split; [apply lstrip_strip | apply rstrip_strip].
Qed.

(** X3.  Cleaning never makes a text longer. *)
Theorem clean_text_length (text : string) :
  String.length (clean_text text) <= String.length text.
Proof.
  pose proof (deleted_from_length _ _ (clean_text_deleted text)) as H.
  pose proof (split_ws_from_length text "") as H'.
  unfold Str.split_ws in H. simpl in H'. lia.
Qed.

(** X4.  A text that holds white space only is cleaned to the empty
    text. *)
Theorem clean_text_blank (text : string) :
  Py.all_chars Str.isspace text = true -> clean_text text = "".
Proof.
  intros H. unfold clean_text, Str.split_ws.
  rewrite (split_ws_from_blank text H).
  now destruct (Str.truthy text).
Qed.

Lemma clean_text_blank_witness : clean_text blank_text = "".
Proof. apply clean_text_blank. reflexivity. Defined.

(** ** The delimiter in table rows *)

Lemma escape_pipes_cons (c : ascii) (s : string) :
  escape_pipes (String c s)
  = if Ascii.eqb c Str.pipe then "\|" +++ escape_pipes s
    else String c (escape_pipes s).
Proof.
  unfold escape_pipes, Str.replace. cbn [Str.replace_from Str.truthy Str.startswith andb].
  rewrite andb_true_r, (Ascii.eqb_sym "|" c).
  change "|"%char with Str.pipe.
  now destruct (Ascii.eqb c Str.pipe).
Qed.

Lemma escape_pipes_head (s : string) : Str.startswith "|" (escape_pipes s) = false.
Proof.
  destruct s as [| c s]; [reflexivity |].
  rewrite escape_pipes_cons.
  destruct (Ascii.eqb c Str.pipe) eqn:E; [reflexivity |].
  cbn [Str.startswith]. rewrite (Ascii.eqb_sym "|" c).
  change "|"%char with Str.pipe. now rewrite E.
Qed.

Lemma escaped_no_unescaped_pipe (s : string) (escaped : bool) :
  unescaped_pipes escaped (escape_pipes s) = 0.
Proof.
  revert escaped. induction s as [| c s IH]; intros escaped; [reflexivity |].
  rewrite escape_pipes_cons.
  destruct (Ascii.eqb c Str.pipe) eqn:E.
  - cbn [String.append unescaped_pipes].
    change (Ascii.eqb "\" Str.pipe) with false.
    change (Ascii.eqb "\" Str.backslash) with true.
    change (Ascii.eqb "|" Str.pipe) with true.
    change (Ascii.eqb "|" Str.backslash) with false.
    cbn [andb negb]. now rewrite IH.
  - cbn [unescaped_pipes]. rewrite E. cbn [andb]. now rewrite IH.
Qed.

Lemma escape_pipes_no_pipe (s : string) :
  Py.all_chars not_pipe s = true -> escape_pipes s = s.
Proof.
  induction s as [| c s IH]; [reflexivity |].
  cbn [Py.all_chars]. intros H. apply andb_true_iff in H as [Hc Hs].
  rewrite escape_pipes_cons.
  unfold not_pipe in Hc. apply negb_true_iff in Hc. rewrite Hc.
  now rewrite IH.
Qed.

(** X5.  In the escaped text of a cell no delimiter is left without a
    backslash in front of it, and a text without delimiter is not
    changed. *)
Theorem escape_pipes_escapes (s : string) :
  (forall escaped, unescaped_pipes escaped (escape_pipes s) = 0)
  /\ (Py.all_chars not_pipe s = true -> escape_pipes s = s).
Proof.
  split.
  - intros escaped. apply escaped_no_unescaped_pipe.
  - apply escape_pipes_no_pipe.
Qed.

Lemma escape_pipes_escapes_witness :
  unescaped_pipes false (escape_pipes "a|b||c") = 0
  /\ escape_pipes "no delimiter" = "no delimiter".
Proof.
  split.
  - apply (proj1 (escape_pipes_escapes "a|b||c")).
  - apply (proj2 (escape_pipes_escapes "no delimiter")). reflexivity.
Defined.

(** X6.  Escaping loses nothing: taking the backslash away in front of
    every delimiter of the escaped text gives the text back. *)
Theorem unescape_escape_pipes (s : string) :
  unescape_pipes (escape_pipes s) = s.
Proof.
  unfold unescape_pipes, Str.replace.
  induction s as [| c s IH]; [reflexivity |].
  rewrite escape_pipes_cons.
  destruct (Ascii.eqb c Str.pipe) eqn:E.
  - apply Ascii.eqb_eq in E. subst c.
    cbn [String.append Str.replace_from Str.truthy Str.startswith andb].
    change (Ascii.eqb "\" "\") with true.
    change (Ascii.eqb "|" "|") with true.
    cbn [andb String.length Nat.sub String.append].
    now rewrite IH.
  - cbn [Str.replace_from Str.truthy Str.startswith andb].
    pose proof (escape_pipes_head s) as H. cbn [Str.startswith] in H.
    destruct (escape_pipes s) as [| c' s'] eqn:Es.
    + rewrite andb_false_r. now rewrite IH.
    + cbn [Str.startswith] in *. rewrite andb_true_r in *.
      rewrite H, andb_false_r. now rewrite IH.
Qed.

Lemma cell_text_escaped (td : node) : exists raw, cell_text td = escape_pipes raw.
Proof.
  unfold cell_text.
  destruct (find_all_direct (is_tag "ul") td).
  - destruct (Str.truthy (clean_text (get_text td))).
    + eexists. reflexivity.
    + now exists "".
  - eexists. reflexivity.
Qed.

Lemma cells_escaped (tds : list node) :
  exists raws, map cell_text tds = map escape_pipes raws.
Proof.
  induction tds as [| td tds [raws IH]]; simpl.
  - now exists [].
  - destruct (cell_text_escaped td) as [raw Hraw].
    exists (raw :: raws). simpl. now rewrite Hraw, IH.
Qed.

Lemma unescaped_after_cell (s t : string) (escaped : bool) :
  unescaped_pipes escaped (escape_pipes s +++ String " " t) = unescaped_pipes false t.
Proof.
  revert escaped. induction s as [| c s IH]; intros escaped; [reflexivity |].
  rewrite escape_pipes_cons.
  destruct (Ascii.eqb c Str.pipe) eqn:E.
  - cbn [String.append unescaped_pipes].
    change (Ascii.eqb "\" Str.pipe) with false.
    change (Ascii.eqb "\" Str.backslash) with true.
    change (Ascii.eqb "|" Str.pipe) with true.
    cbn [andb negb]. now rewrite IH.
  - cbn [String.append unescaped_pipes]. rewrite E. cbn [andb]. now rewrite IH.
Qed.

Lemma unescaped_in_cells (raw : string) (raws : list string) (escaped : bool) :
  unescaped_pipes escaped (Str.join " | " (map escape_pipes (raw :: raws)) +++ " |")
  = S (List.length raws).
Proof.
  revert raw escaped. induction raws as [| raw' raws IH]; intros raw escaped.
  - cbn [map Str.join String.concat].
    change " |" with (String " " "|").
    rewrite unescaped_after_cell. reflexivity.
  - change (Str.join " | " (map escape_pipes (raw :: raw' :: raws)))
      with (escape_pipes raw +++ " | " +++ Str.join " | " (map escape_pipes (raw' :: raws))).
    rewrite append_assoc.
    change (" | " +++ Str.join " | " (map escape_pipes (raw' :: raws)))
      with (String " " (String "|" (String " "
              (Str.join " | " (map escape_pipes (raw' :: raws)))))).
    cbn [String.append].
    rewrite unescaped_after_cell.
    cbn [unescaped_pipes].
    change (Ascii.eqb "|" Str.pipe) with true.
    change (Ascii.eqb "|" Str.backslash) with false.
    change (Ascii.eqb " " Str.pipe) with false.
    change (Ascii.eqb " " Str.backslash) with false.
    cbn [andb negb Nat.add]. now rewrite IH.
Qed.

Lemma unescaped_in_row (tds : list node) :
  tds <> [] ->
  unescaped_pipes false (table_row (map cell_text tds)) = List.length tds + 1.
Proof.
  intros Hne.
  destruct (cells_escaped tds) as [raws Hraws].
  assert (List.length raws = List.length tds) as Hlen.
  { rewrite <- (length_map escape_pipes), <- Hraws. apply length_map. }
  rewrite Hraws, <- Hlen.
  destruct raws as [| raw raws]; [destruct tds; [now contradiction Hne | discriminate] |].
  unfold table_row.
  change ("| " +++ Str.join " | " (map escape_pipes (raw :: raws)) +++ " |")
    with (String "|" (String " "
            (Str.join " | " (map escape_pipes (raw :: raws)) +++ " |"))).
  cbn [unescaped_pipes].
  change (Ascii.eqb "|" Str.pipe) with true.
  change (Ascii.eqb "|" Str.backslash) with false.
  change (Ascii.eqb " " Str.pipe) with false.
  change (Ascii.eqb " " Str.backslash) with false.
  cbn [andb negb Nat.add].
  rewrite unescaped_in_cells. simpl. lia.
Qed.

Lemma body_rows_eq (table_element : node) :
  body_rows table_element
  = map (fun cells => table_row (map cell_text cells)) (body_row_cells table_element).
Proof.
  unfold body_rows, body_row_cells.
  destruct (find (is_tag "tbody") table_element) as [tbody |]; [| reflexivity].
  induction (find_all (is_tag "tr") tbody) as [| tr trs IH]; [reflexivity |].
  cbn [flat_map map filter]. rewrite IH.
  now destruct (find_all (is_tag_in ["td"; "th"]) tr).
Qed.

Lemma body_row_cells_nonempty (table_element : node) :
  Forall (fun cells => cells <> []) (body_row_cells table_element).
Proof.
  unfold body_row_cells.
  destruct (find (is_tag "tbody") table_element) as [tbody |]; [| constructor].
  apply Forall_forall. intros cells Hin.
  apply filter_In in Hin as [_ Hin].
  destruct cells; [discriminate | discriminate].
Qed.

(** X7.  Every body row that [format_table_with_bullets] builds holds one
    delimiter more than it has cells, if the delimiters that follow a
    backslash are not counted: read with the escapes honoured, a row keeps
    its number of columns whatever the cells hold. *)
Theorem body_rows_delimiters (table_element : node) :
  map (unescaped_pipes false) (body_rows table_element)
  = map (fun cells => List.length cells + 1) (body_row_cells table_element).
Proof.
  rewrite body_rows_eq, map_map.
  pose proof (body_row_cells_nonempty table_element) as H.
  induction H as [| cells l Hc Hl IH]; [reflexivity |].
  cbn [map]. now rewrite IH, (unescaped_in_row cells Hc).
Qed.

Example body_rows_delimiters_ex :
  body_rows table_with_lists = ["| a\|b | • x\|y<br/>• z |"; "| c |"]
  /\ map (unescaped_pipes false) (body_rows table_with_lists) = [3; 2].
Proof. split; vm_compute; reflexivity. Qed.

(** *** Splitting at a character *)

Lemma split_char_no_sep (sep : ascii) (s cur : string) :
  Py.all_chars (fun c => negb (Ascii.eqb c sep)) s = true ->
  Str.split_char_from sep cur s = [cur +++ s].
Proof.
  revert cur. induction s as [| c s IH]; intros cur; cbn [Py.all_chars Str.split_char_from].
  - now rewrite append_empty_r.
  - intros H. apply andb_true_iff in H as [Hc Hs].
    apply negb_true_iff in Hc. rewrite Hc.
    rewrite (IH _ Hs), append_assoc. reflexivity.
Qed.

Lemma split_char_at_sep (sep : ascii) (s t cur : string) :
  Py.all_chars (fun c => negb (Ascii.eqb c sep)) s = true ->
  Str.split_char_from sep cur (s +++ String sep t)
  = (cur +++ s) :: Str.split_char_from sep "" t.
Proof.
  revert cur. induction s as [| c s IH]; intros cur;
    cbn [Py.all_chars String.append Str.split_char_from].
  - intros _. now rewrite Ascii.eqb_refl, append_empty_r.
  - intros H. apply andb_true_iff in H as [Hc Hs].
    apply negb_true_iff in Hc. rewrite Hc.
    rewrite (IH _ Hs), append_assoc. reflexivity.
Qed.





(** ** Lists *)

Lemma startswith_append (p t : string) : Str.startswith p (p +++ t) = true.
Proof.
  induction p as [| c p IH]; [reflexivity |].
  cbn [String.append Str.startswith]. now rewrite Ascii.eqb_refl, IH.
Qed.

(** The lines of an item in a table cell: its own line, or lines that
    start as the lines of nested items do *)
Lemma process_list_item_lines (n : node) :
  (forall bullet_char indent,
      Forall (fun line => line = indent +++ bullet_char +++ " " +++ li_text n
                          \/ Str.startswith nested_prefix line = true)
             (process_list_item bullet_char indent n))
  /\ Forall (fun child =>
               Forall (fun line => Str.startswith nested_prefix line = true)
                      (process_list_item "◦" "&nbsp;&nbsp;&nbsp;&nbsp;" child))
            (children n).
Proof.
  induction n as [text | name cl at_ cs IH] using node_nested_ind.
  - split; [intros; constructor | constructor].
  - assert (Forall (fun child =>
                      Forall (fun line => Str.startswith nested_prefix line = true)
                             (process_list_item "◦" "&nbsp;&nbsp;&nbsp;&nbsp;" child)) cs)
      as Hchildren.
    { eapply Forall_impl; [| exact IH].
      intros child [Hchild _].
      eapply Forall_impl; [| apply (Hchild "◦" "&nbsp;&nbsp;&nbsp;&nbsp;")].
      intros line [-> | Hline]; [| exact Hline].
      apply (startswith_append nested_prefix). }
    split; [| exact Hchildren].
    intros bullet_char indent.
    rewrite process_list_item_eq.
    apply Forall_app. split.
    + destruct (Str.truthy (li_text (Tag name cl at_ cs))); repeat constructor.
    + destruct (find_direct (is_tag "ul") (Tag name cl at_ cs)) as [u |] eqn:Eu;
        [| constructor].
      unfold find_direct, find_all_direct in Eu. rewrite hd_error_filter in Eu.
      apply find_some in Eu as [Hin _]. simpl in Hin.
      rewrite Forall_forall in IH. destruct (IH u Hin) as [_ Hu].
      apply Forall_forall. intros line Hline.
      apply in_flat_map in Hline as [nested_li [Hli Hline]].
      unfold find_all_direct in Hli. apply filter_In in Hli as [Hli _].
      rewrite Forall_forall in Hu. specialize (Hu nested_li Hli).
      rewrite Forall_forall in Hu. right. now apply Hu.
Qed.

(** X9.  In a table cell, every line that [process_list_item] yields for
    an item is either the line of the item itself or starts with the
    indentation and the glyph of the second level: the items of all deeper
    levels are shown alike. *)
Theorem process_list_item_two_levels (bullet_char indent : string) (li : node) :
  Forall (fun line => line = indent +++ bullet_char +++ " " +++ li_text li
                      \/ Str.startswith nested_prefix line = true)
         (process_list_item bullet_char indent li).
Proof. apply (proj1 (process_list_item_lines li)). Qed.

Example deep_item_lines :
  process_list_item "•" "" deep_item
  = ["• one"; "&nbsp;&nbsp;&nbsp;&nbsp;◦ two"; "&nbsp;&nbsp;&nbsp;&nbsp;◦ three";
     "&nbsp;&nbsp;&nbsp;&nbsp;◦ four"].
Proof. vm_compute. reflexivity. Qed.

Lemma item_lines_li (li : node) :
  is_tag "li" li = true -> item_lines li <> [].
Proof. intros H. unfold item_lines. rewrite H. discriminate. Qed.

Lemma process_list_nil (name : string) (cl : option (list string))
      (at_ : list (string * string)) (cs : list node) :
  process_list (Tag name cl at_ cs) = [] <-> filter (is_tag "li") cs = [].
Proof.
  rewrite process_list_eq.
  induction cs as [| c cs IH]; simpl; [tauto |].
  destruct (is_tag "li" c) eqn:E.
  - split; [| discriminate].
    intros H. apply app_eq_nil in H as [H _]. now apply item_lines_li in H.
  - unfold item_lines at 1. rewrite E. simpl. exact IH.
Qed.

(** X10.  A list node without [li] children adds nothing to the content of
    a section; one with [li] children adds its lines between "<ul>" and
    "</ul>". *)
Theorem list_block (cl : option (list string)) (at_ : list (string * string))
        (cs : list node) :
  (filter (is_tag "li") cs = [] -> content_of_child (Tag "ul" cl at_ cs) = [])
  /\ (filter (is_tag "li") cs <> [] ->
      content_of_child (Tag "ul" cl at_ cs)
      = ["<ul>"] ++ process_list (Tag "ul" cl at_ cs) ++ ["</ul>"]).
Proof.
  unfold content_of_child.
  change (Str.truthy "ul") with true.
  change (String.eqb "ul" "h3") with false.
  change (String.eqb "ul" "div") with false.
  change (String.eqb "ul" "ul") with true.
  cbn [negb andb].
  split; intros H.
  - apply (proj2 (process_list_nil "ul" cl at_ cs)) in H. now rewrite H.
  - destruct (process_list (Tag "ul" cl at_ cs)) eqn:E; [| reflexivity].
    now apply (proj1 (process_list_nil "ul" cl at_ cs)) in E.
Qed.

Lemma list_block_witness :
  content_of_child (el "ul" [txt " "; el "p" [txt "no item"]]) = []
  /\ content_of_child (el "ul" [el "li" [txt "one"]])
     = ["<ul>"; "<li>one"; "</li>"; "</ul>"].
Proof.
  split.
  - apply (proj1 (list_block None [] [txt " "; el "p" [txt "no item"]])). reflexivity.
  - apply (proj2 (list_block None [] [el "li" [txt "one"]])). discriminate.
Defined.

Lemma li_text_parts_visible (cs : list node) :
  Forall (fun t => Py.all_chars blank_or_visible t = true) (li_text_parts cs).
Proof.
  induction cs as [| c cs IH]; simpl; [constructor |].
  destruct (is_tag "ul" c); [constructor |].
  apply Forall_app. split; [| exact IH].
  destruct (Str.truthy (clean_text (get_text c))); [| constructor].
  constructor; [apply clean_text_blank_or_visible | constructor].
Qed.

Lemma li_text_visible (li : node) : Py.all_chars blank_or_visible (li_text li) = true.
Proof.
  unfold li_text.
  eapply deleted_from_all_chars; [apply strip_deleted |].
  apply all_chars_join; [reflexivity | apply li_text_parts_visible].
Qed.

Lemma process_list_visible (n : node) :
  Forall (fun line => Py.all_chars blank_or_visible line = true) (process_list n)
  /\ Forall (fun line => Py.all_chars blank_or_visible line = true) (item_lines n).
Proof.
  induction n as [text | name cl at_ cs IH] using node_nested_ind.
  - split; constructor.
  - split.
    + rewrite process_list_eq.
      apply Forall_forall. intros line Hline.
      apply in_flat_map in Hline as [c [Hc Hline]].
      rewrite Forall_forall in IH. destruct (IH c Hc) as [_ Hitem].
      rewrite Forall_forall in Hitem. now apply Hitem.
    + unfold item_lines.
      destruct (is_tag "li" (Tag name cl at_ cs)); [| constructor].
      rewrite item_line.
      apply Forall_app. split.
      { constructor; [| constructor].
        rewrite all_chars_append. now rewrite li_text_visible. }
      apply Forall_app. split; [| repeat constructor].
      destruct (find_direct (is_tag "ul") (Tag name cl at_ cs)) as [u |] eqn:Eu;
        [| constructor].
      unfold find_direct, find_all_direct in Eu. rewrite hd_error_filter in Eu.
      apply find_some in Eu as [Hin _]. simpl in Hin.
      rewrite Forall_forall in IH. destruct (IH u Hin) as [Hu _].
      apply Forall_app. split; [repeat constructor |].
      apply Forall_app. split; [exact Hu | repeat constructor].
Qed.

Lemma visible_not_newline (s : string) :
  Py.all_chars blank_or_visible s = true -> Py.all_chars not_newline s = true.
Proof.
  apply all_chars_impl. intros c Hc. unfold not_newline.
  destruct (Ascii.eqb_spec c newline) as [-> | _]; [discriminate Hc | reflexivity].
Qed.

Lemma split_join_from (line : string) (lines : list string) (cur : string) :
  Forall (fun l => Py.all_chars not_newline l = true) (line :: lines) ->
  Str.split_char_from newline cur (Str.join Str.nl (line :: lines))
  = (cur +++ line) :: lines.
Proof.
  revert line cur. induction lines as [| line' lines IH]; intros line cur Hall.
  - inversion Hall; subst. cbn [Str.join String.concat].
    now apply split_char_no_sep.
  - inversion Hall; subst.
    change (Str.join Str.nl (line :: line' :: lines))
      with (line +++ String newline (Str.join Str.nl (line' :: lines))).
    rewrite split_char_at_sep by exact H1.
    now rewrite (IH line' "" H2).
Qed.

Lemma read_items_process_list (n : node) :
  read_items (process_list n) = Some (items_of n).
Proof.
  unfold read_items.
  pose proof (proj1 (reads_back_node n) [] [] []) as H.
  rewrite app_nil_r in H. rewrite H. simpl.
  now rewrite app_nil_r, rev_involutive.
Qed.

(** X11.  No line of [process_list] holds a line break.  So when the lines
    of a list are joined by line breaks, as [extract_content_from_section]
    joins them, splitting at the line breaks gives the lines back, and the
    items can be read from the joined text. *)
Theorem process_list_lines_split (ul_element : node) :
  process_list ul_element <> [] ->
  Str.split_char newline (Str.join Str.nl (process_list ul_element))
  = process_list ul_element
  /\ read_items (Str.split_char newline (Str.join Str.nl (process_list ul_element)))
     = Some (items_of ul_element).
Proof.
  intros Hne.
  assert (Str.split_char newline (Str.join Str.nl (process_list ul_element))
          = process_list ul_element) as Hsplit.
  { pose proof (proj1 (process_list_visible ul_element)) as Hvis.
    destruct (process_list ul_element) as [| line lines]; [now contradiction Hne |].
    unfold Str.split_char. rewrite split_join_from; [reflexivity |].
    eapply Forall_impl; [| exact Hvis]. apply visible_not_newline. }
  split; [exact Hsplit |].
  rewrite Hsplit. apply read_items_process_list.
Qed.

Lemma process_list_lines_split_witness :
  read_items (Str.split_char newline
                (Str.join Str.nl (process_list (el "ul" [item_with_two_sublists]))))
  = Some [Item "one" [Item "kept" []]].
Proof.
  refine (proj2 (process_list_lines_split (el "ul" [item_with_two_sublists]) _)).
  vm_compute. discriminate.
Defined.

(** ** Sections *)

Lemma section_title_truthy (i : nat) (section : node) :
  Str.truthy (section_title i section) = true.
Proof.
  unfold section_title.
  destruct (extract_section_title_from_element section) as [t |]; [| reflexivity].
  destruct (Str.truthy t) eqn:E; [exact E | reflexivity].
Qed.

(** X12.  Every section that [extract_sections] returns has a title and a
    content that are not empty. *)
Theorem sections_not_empty (soup : node) :
  Forall (fun s => title s <> "" /\ content s <> "") (fst (extract_sections soup)).
Proof.
  unfold extract_sections; simpl.
  generalize 0 as i. induction (section_elements soup) as [| section l IH]; intros i;
    simpl; [constructor |].
  destruct (is_references (section_title i section)); [apply IH |].
  destruct (Str.truthy (extract_content_from_section section)) eqn:E; [| apply IH].
  constructor; [| apply IH]. simpl. split.
  - apply truthy_true, section_title_truthy.
  - now apply truthy_true.
Qed.

Lemma no_container_no_content (section : node) :
  has_container section = false -> extract_content_from_section section = "".
Proof.
  unfold has_container, extract_content_from_section.
  destruct (or_else _ _); [discriminate | reflexivity].
Qed.

Lemma extract_sections_from_length (l : list node) (i : nat) :
  List.length (extract_sections_from i l) <= List.length (filter has_container l).
Proof.
  revert i. induction l as [| section l IH]; intros i; simpl; [lia |].
  specialize (IH (S i)).
  destruct (has_container section) eqn:Ec.
  - destruct (is_references _); [simpl; lia |].
    destruct (Str.truthy _); simpl; lia.
  - rewrite (no_container_no_content section Ec).
    destruct (is_references _); simpl; lia.
Qed.

Lemma with_content_filter (l : list (nat * node)) :
  with_content (filter (fun '(i, section) => has_container section) l) = with_content l.
Proof.
  induction l as [| [i section] l IH]; simpl; [reflexivity |].
  destruct (has_container section) eqn:Ec; simpl.
  - now rewrite IH.
  - now rewrite (no_container_no_content section Ec).
Qed.

Lemma enumerate_from_nth {A : Type} (l : list A) (k i : nat) (x : A) :
  In (i, x) (enumerate_from k l) -> k <= i /\ nth_error l (i - k) = Some x.
Proof.
  revert k. induction l as [| y l IH]; intros k; simpl; [tauto |].
  intros [[= <- <-] | Hin].
  - split; [lia |]. now rewrite Nat.sub_diag.
  - destruct (IH (S k) Hin) as [Hle Hnth]. split; [lia |].
    replace (i - k) with (S (i - S k)) by lia. exact Hnth.
Qed.

Lemma with_content_origin (l : list (nat * node)) (s : section_data) :
  In s (with_content l) ->
  exists i section,
    In (i, section) l
    /\ has_container section = true
    /\ title s = section_title i section
    /\ content s = extract_content_from_section section.
Proof.
  unfold with_content. intros Hin.
  apply in_flat_map in Hin as [[i section] [Hl Hs]].
  destruct (Str.truthy (extract_content_from_section section)) eqn:Et; [| destruct Hs].
  destruct Hs as [<- | []].
  exists i, section. repeat split; try assumption.
  destruct (has_container section) eqn:Ec; [reflexivity |].
  rewrite (no_container_no_content section Ec) in Et. discriminate Et.
Qed.

(** X13.  A section element without a content container ("shown" or
    "hidden") is never returned by [extract_sections]: the result is the
    same when these elements are left out beforehand, every section
    returned has the title and the content of a section element that holds
    a container, and there are at most as many sections as such
    elements. *)
Theorem sections_need_container (soup : node) :
  fst (extract_sections soup)
  = with_content
      (filter (fun '(i, section) => has_container section)
              (not_skipped (enumerate_from 0 (section_elements soup))))
  /\ Forall (fun s => exists i section,
                 nth_error (section_elements soup) i = Some section
                 /\ has_container section = true
                 /\ title s = section_title i section
                 /\ content s = extract_content_from_section section)
            (fst (extract_sections soup))
  /\ List.length (fst (extract_sections soup))
     <= List.length (filter has_container (section_elements soup)).
Proof.
  split; [| split].
  - unfold extract_sections; simpl.
    now rewrite extract_sections_from_filter, with_content_filter.
  - unfold extract_sections; simpl. rewrite extract_sections_from_filter.
    apply Forall_forall. intros s Hs.
    apply with_content_origin in Hs as (i & section & Hin & Hc & Ht & Hco).
    unfold not_skipped in Hin. apply filter_In in Hin as [Hin _].
    apply enumerate_from_nth in Hin as [_ Hnth]. rewrite Nat.sub_0_r in Hnth.
    now exists i, section.
  - apply extract_sections_from_length.
Qed.

Example no_container_no_section :
  fst (extract_sections page_without_containers) = [].
Proof. vm_compute. reflexivity. Qed.

(** ** The article title *)

Lemma substring_append_left (s p : string) :
  substring 0 (String.length s) (s +++ p) = s.
Proof.
  induction s as [| c s IH]; simpl.
  - now destruct p.
  - now rewrite IH.
Qed.

Lemma substring_append_right (s p : string) (m : nat) :
  substring (String.length s) m (s +++ p) = substring 0 m p.
Proof. induction s as [| c s IH]; simpl; [reflexivity | exact IH]. Qed.

Lemma endswith_append (s p : string) : Str.endswith p (s +++ p) = true.
Proof.
  unfold Str.endswith. rewrite length_append.
  replace (String.length s + String.length p - String.length p)
    with (String.length s) by lia.
  rewrite substring_append_right, substring_all, String.eqb_refl.
  rewrite andb_true_r. apply Nat.leb_le. lia.
Qed.

Lemma drop_last_append (s p : string) :
  Str.drop_last (String.length p) (s +++ p) = s.
Proof.
  unfold Str.drop_last. rewrite length_append.
  replace (String.length s + String.length p - String.length p)
    with (String.length s) by lia.
  apply substring_append_left.
Qed.

(** X14.  When the declared title of the page, white space at its ends
    apart, is a text followed by " - AMBOSS", and the text is not blank,
    the article title is that text without the white space at its ends,
    whatever else the page holds. *)
Theorem declared_title_suffix (soup title_tag : node) (s : string) :
  find (is_tag "title") soup = Some title_tag ->
  Str.strip (get_text title_tag) = s +++ " - AMBOSS" ->
  Str.strip s <> "" ->
  extract_article_title_from_soup soup = Str.strip s.
Proof.
  intros Hfind Htext Hs.
  unfold extract_article_title_from_soup.
  rewrite Hfind, Htext.
  rewrite (endswith_append s " - AMBOSS").
  change 9 with (String.length " - AMBOSS").
  rewrite drop_last_append.
  apply truthy_true in Hs. now rewrite Hs.
Qed.

Lemma declared_title_suffix_witness :
  extract_article_title_from_soup page_with_title = "Heart failure".
Proof.
  apply (declared_title_suffix page_with_title
           (el "title" [txt "  Heart failure - AMBOSS "]) "Heart failure").
  - reflexivity.
  - reflexivity.
  - discriminate.
Defined.

(** X15.  On a page without an article-header element the article title
    is never empty: it is the declared title, the first main heading, or
    "Medical Content". *)
Theorem article_title_not_empty (soup : node) :
  find (has_attr "data-e2e-test-id" "articleHeader") soup = None ->
  extract_article_title_from_soup soup <> "".
Proof.
  intros Hnone. apply truthy_true.
  unfold extract_article_title_from_soup. rewrite Hnone.
  destruct (find (is_tag "title") soup) as [title_tag |].
  - set (t := if Str.endswith " - AMBOSS" (Str.strip (get_text title_tag))
              then Str.strip (Str.drop_last 9 (Str.strip (get_text title_tag)))
              else Str.strip (get_text title_tag)).
    destruct (Str.truthy t) eqn:Et; [exact Et |].
    destruct (heading_title (find (is_tag "h1") soup)) as [h |] eqn:Eh; [| reflexivity].
    now apply heading_title_truthy in Eh.
  - destruct (heading_title (find (is_tag "h1") soup)) as [h |] eqn:Eh; [| reflexivity].
    now apply heading_title_truthy in Eh.
Qed.

Lemma article_title_not_empty_witness :
  extract_article_title_from_soup page_with_references <> "".
Proof. apply article_title_not_empty. reflexivity. Defined.

(** ** The five strategies *)

Lemma first_nonempty_truthy (results : list (option string)) (t : string) :
  first_nonempty results = Some t -> Str.truthy t = true.
Proof.
  induction results as [| [r |] results IH]; simpl; [discriminate | | exact IH].
  destruct (Str.truthy r) eqn:E; [| exact IH].
  intros [= <-]. exact E.
Qed.

(** X16.  [extract_section_title] never returns an empty title, and it
    finds a title whenever the heading search that [extract_sections] uses
    finds one. *)
Theorem cascade_covers_heading (section : node) :
  (forall t, extract_section_title section = Some t -> t <> "")
  /\ (forall t, extract_section_title_from_element section = Some t ->
                exists t', extract_section_title section = Some t').
Proof.
  rewrite extract_section_title_cascade. split.
  - intros t H. apply truthy_true. now apply first_nonempty_truthy in H.
  - intros t H.
    change (extract_section_title_from_element section) with (any_heading section) in H.
    pose proof (heading_title_truthy _ _ H) as Ht.
    simpl.
    destruct (header_marker_heading section) as [t1 |];
      [destruct (Str.truthy t1); [eexists; reflexivity |] |];
      (destruct (header_classed_heading section) as [t2 |];
       [destruct (Str.truthy t2); [eexists; reflexivity |] |]);
      rewrite H, Ht; eexists; reflexivity.
Qed.

Lemma cascade_covers_heading_witness :
  exists t', extract_section_title
               (marked "section" "section-with-header" [el "h3" [txt "Overview"]])
             = Some t'.
Proof.
  apply (proj2 (cascade_covers_heading
                  (marked "section" "section-with-header" [el "h3" [txt "Overview"]]))
           "Overview").
  reflexivity.
Defined.

(** ** File names *)

Lemma keep_chars_class (class : ascii -> bool) (s : string) :
  Py.all_chars class (Re.keep_chars class s) = true.
Proof.
  induction s as [| c s IH]; simpl; [reflexivity |].
  destruct (class c) eqn:E; simpl; [now rewrite E |]; exact IH.
Qed.

Lemma replace_runs_word (s : string) (in_run : bool) :
  Py.all_chars (fun c => Re.word c || Re.space c || Re.hyphen c) s = true ->
  Py.all_chars Re.word
    (Re.replace_runs (fun c => Re.hyphen c || Re.space c) "_" in_run s) = true.
Proof.
  revert in_run. induction s as [| c s IH]; intros in_run; simpl; [reflexivity |].
  intros H. apply andb_true_iff in H as [Hc Hs].
  destruct (Re.hyphen c || Re.space c) eqn:E.
  - destruct in_run; simpl; now rewrite ?IH.
  - simpl. rewrite IH by exact Hs.
    apply orb_false_iff in E as [Eh Es]. rewrite Eh, Es in Hc.
    rewrite !orb_false_r in Hc. now rewrite Hc.
Qed.

Lemma lstrip_char_deleted (x : ascii) (s : string) :
  deleted_from (Py.lstrip_char x s) s.
Proof.
  induction s as [| c s IH]; simpl; [constructor |].
  destruct (Ascii.eqb c x); [now constructor | apply deleted_from_refl].
Qed.

Lemma rstrip_char_deleted (x : ascii) (s : string) :
  deleted_from (Py.rstrip_char x s) s.
Proof.
  induction s as [| c s IH]; simpl; [constructor |].
  destruct (Ascii.eqb c x && negb (Str.truthy (Py.rstrip_char x s))).
  - apply deleted_from_empty.
  - now constructor.
Qed.

Lemma take_deleted (n : nat) (s : string) : deleted_from (Py.take n s) s.
Proof.
  revert n. induction s as [| c s IH]; intros [| n]; simpl;
    try apply deleted_from_empty; try constructor.
  apply IH.
Qed.

Lemma take_length (n : nat) (s : string) : String.length (Py.take n s) <= n.
Proof.
  revert s. induction n as [| n IH]; intros [| c s]; simpl; try lia.
  specialize (IH s). lia.
Qed.

Lemma lstrip_char_head (x : ascii) (s : string) :
  Str.startswith (String x "") (Py.lstrip_char x s) = false.
Proof.
  induction s as [| c s IH]; [reflexivity |].
  cbn [Py.lstrip_char].
  destruct (Ascii.eqb c x) eqn:E; [exact IH |].
  cbn [Str.startswith]. now rewrite Ascii.eqb_sym, E.
Qed.

Lemma rstrip_char_head (x : ascii) (s : string) :
  Str.startswith (String x "") s = false ->
  Str.startswith (String x "") (Py.rstrip_char x s) = false.
Proof.
  destruct s as [| c s]; [reflexivity |].
  cbn [Str.startswith Py.rstrip_char]. rewrite andb_true_r. intros H.
  rewrite (Ascii.eqb_sym c x), H. cbn [andb Str.startswith].
  now rewrite H.
Qed.

Lemma take_head (x : ascii) (n : nat) (s : string) :
  Str.startswith (String x "") s = false ->
  Str.startswith (String x "") (Py.take n s) = false.
Proof.
  destruct s as [| c s]; destruct n; try reflexivity.
  cbn [Str.startswith Py.take]. now rewrite !andb_true_r.
Qed.

Lemma digits_of_uint (d : Decimal.uint) :
  Py.all_chars Str.isdigit (NilEmpty.string_of_uint d) = true.
Proof. induction d; simpl; try reflexivity; exact IHd. Qed.

Lemma of_nat_digits (n : nat) : Py.all_chars Str.isdigit (Str.of_nat n) = true.
Proof.
  unfold Str.of_nat, NilZero.string_of_uint.
  destruct (Nat.to_uint n) eqn:E; try reflexivity;
    rewrite <- E; try (rewrite E; apply (digits_of_uint _)).
Qed.

Lemma isdigit_word (c : ascii) : Str.isdigit c = true -> Re.word c = true.
Proof.
  unfold Str.isdigit, Re.word, Re.between. intros H. now rewrite H.
Qed.

Lemma zfill3_word (n : nat) : Py.all_chars Re.word (Py.zfill3 n) = true.
Proof.
  unfold Py.zfill3. rewrite all_chars_append.
  rewrite (all_chars_impl _ _ _ isdigit_word (of_nat_digits n)).
  rewrite andb_true_r.
  induction (3 - String.length (Str.of_nat n)) as [| k IH]; [reflexivity |].
  cbn [repeat String.concat].
  destruct (repeat "0" k); [reflexivity |].
  rewrite !all_chars_append. cbn [String.concat] in IH.
  change (Py.all_chars Re.word "0") with true.
  change (Py.all_chars Re.word "") with true.
  cbn [andb]. exact IH.
Qed.

Lemma ext_map_get_word (output_format : string) :
  Py.all_chars Re.word (ext_map_get output_format) = true.
Proof.
  unfold ext_map_get.
  destruct (String.eqb output_format "text"); [reflexivity |].
  destruct (String.eqb output_format "markdown"); [reflexivity |].
  destruct (String.eqb output_format "html"); reflexivity.
Qed.

Lemma split_char_from_cons (sep : ascii) (s cur : string) :
  exists x l, Str.split_char_from sep cur s = x :: l.
Proof.
  revert cur. induction s as [| c s IH]; intros cur; simpl.
  - now exists cur, [].
  - destruct (Ascii.eqb c sep); [now eexists; eexists | apply IH].
Qed.

Lemma split_char_from_two (sep : ascii) (s cur : string) :
  Py.all_chars (fun c => negb (Ascii.eqb c sep)) s = false ->
  2 <= List.length (Str.split_char_from sep cur s).
Proof.
  revert cur. induction s as [| c s IH]; intros cur; simpl; [discriminate |].
  destruct (Ascii.eqb c sep); simpl.
  - intros _. destruct (split_char_from_cons sep s "") as [x [l ->]]. simpl. lia.
  - apply IH.
Qed.

Lemma index_m2_some {A : Type} (l : list A) :
  2 <= List.length l -> exists x, Py.index_m2 l = Some x.
Proof.
  intros H. unfold Py.index_m2.
  destruct (nth_error (rev l) 1) as [x |] eqn:E; [now exists x |].
  apply nth_error_None in E. rewrite length_rev in E. lia.
Qed.

Lemma index_m1_some {A : Type} (x : A) (l : list A) :
  exists y, Py.index_m1 (x :: l) = Some y.
Proof.
  unfold Py.index_m1.
  destruct (nth_error (rev (x :: l)) 0) as [y |] eqn:E; [now exists y |].
  apply nth_error_None in E. rewrite length_rev in E. simpl in E. lia.
Qed.

(** The last piece of the address, or the piece before it when the last
    is empty, as [generate_filename] takes it *)
Lemma url_piece (url : string) :
  url <> "" ->
  exists page_name,
    match Py.index_m1 (Str.split_char "/" url) with
    | Some last => if Str.truthy last then Some last
                   else Py.index_m2 (Str.split_char "/" url)
    | None => None
    end = Some page_name.
Proof.
  intros Hurl. unfold Str.split_char.
  destruct (Py.all_chars (fun c => negb (Ascii.eqb c "/")) url) eqn:E.
  - rewrite (split_char_no_sep "/" url "" E). cbn.
    apply truthy_true in Hurl. rewrite Hurl. now exists url.
  - pose proof (split_char_from_two "/" url "" E) as Hlen.
    destruct (split_char_from_cons "/" url "") as [x [l Hl]].
    rewrite Hl in *.
    destruct (index_m1_some x l) as [last ->].
    destruct (Str.truthy last); [now exists last |].
    now apply index_m2_some.
Qed.

Lemma replace_others_class (class : ascii -> bool) (x : ascii) (s : string) :
  class x = true -> Py.all_chars class (Re.replace_others class x s) = true.
Proof.
  intros Hx. induction s as [| c s IH]; simpl; [reflexivity |].
  rewrite IH. destruct (class c) eqn:E; now rewrite ?E, ?Hx.
Qed.

Lemma title_name (t : string) :
  let name :=
    Py.take 50 (Py.strip_char "_"
      (Re.replace_runs (fun c => Re.hyphen c || Re.space c) "_" false
         (Re.keep_chars (fun c => Re.word c || Re.space c || Re.hyphen c) t))) in
  String.length name <= 50
  /\ Py.all_chars Re.word name = true
  /\ Str.startswith "_" name = false.
Proof.
  intros name. subst name. split; [apply take_length | split].
  - eapply deleted_from_all_chars; [apply take_deleted |].
    eapply deleted_from_all_chars; [apply rstrip_char_deleted |].
    eapply deleted_from_all_chars; [apply lstrip_char_deleted |].
    apply replace_runs_word, keep_chars_class.
  - apply take_head. unfold Py.strip_char.
    apply rstrip_char_head, lstrip_char_head.
Qed.

Lemma generate_filename_name_of_title (url : string) (index : nat)
      (output_format t : string) :
  t <> "" ->
  exists name,
    generate_filename url index output_format (Some t)
    = Some ("page_" +++ Py.zfill3 index +++ "_" +++ name +++ "."
            +++ ext_map_get output_format)
    /\ Py.all_chars Re.word name = true.
Proof.
  intros Ht. apply truthy_true in Ht.
  unfold generate_filename, title_given. rewrite Ht.
  destruct (title_name t) as (_ & Hword & _).
  set (name := Py.take 50 _) in *.
  destruct (Str.truthy name).
  - exists name. now split.
  - exists "article". now split.
Qed.

Lemma generate_filename_name_of_url (url : string) (index : nat)
      (output_format : string) (article_title : option string) (filename : string) :
  title_given article_title = None ->
  generate_filename url index output_format article_title = Some filename ->
  exists name,
    filename = "page_" +++ Py.zfill3 index +++ "_" +++ name +++ "."
               +++ ext_map_get output_format
    /\ Py.all_chars Re.url_safe name = true.
Proof.
  intros Hnone. unfold generate_filename. rewrite Hnone.
  destruct (match Py.index_m1 (Str.split_char "/" url) with
            | Some last => if Str.truthy last then Some last
                           else Py.index_m2 (Str.split_char "/" url)
            | None => None
            end) as [page_name |]; [| discriminate].
  intros [= <-].
  exists (Py.take 50 (Re.replace_others Re.url_safe "_" page_name)).
  split; [reflexivity |].
  eapply deleted_from_all_chars; [apply take_deleted |].
  now apply replace_others_class.
Qed.

(** X17.  With a non-empty article title, the file name is "page_", the
    index on three digits at least, "_", a name and the extension of the
    format ("txt" for an unknown format); the name is not empty, has at
    most 50 characters, all of them word characters, and does not start
    with an underscore. *)
Theorem generate_filename_from_title (url : string) (index : nat)
        (output_format t : string) :
  t <> "" ->
  exists name,
    generate_filename url index output_format (Some t)
    = Some ("page_" +++ Py.zfill3 index +++ "_" +++ name +++ "."
            +++ ext_map_get output_format)
    /\ name <> ""
    /\ String.length name <= 50
    /\ Py.all_chars Re.word name = true
    /\ Str.startswith "_" name = false.
Proof.
  intros Ht. apply truthy_true in Ht.
  unfold generate_filename, title_given. rewrite Ht.
  destruct (title_name t) as (Hlen & Hword & Hhead).
  set (name := Py.take 50 _) in *.
  destruct (Str.truthy name) eqn:En.
  - exists name. repeat split; try assumption. now apply truthy_true.
  - exists "article". repeat split; try reflexivity; try discriminate.
    simpl. lia.
Qed.

Lemma generate_filename_from_title_witness :
  exists name,
    generate_filename "https://next.amboss.com/us/article/abc" 7 "markdown"
                      (Some "Heart failure (acute)")
    = Some ("page_007_" +++ name +++ ".md")
    /\ name <> "".
Proof.
  destruct (generate_filename_from_title "https://next.amboss.com/us/article/abc" 7
              "markdown" "Heart failure (acute)") as (name & Heq & Hne & _).
  - discriminate.
  - exists name. split; [exact Heq | exact Hne].
Defined.

(** X18.  Without an article title (none, or an empty one), the call fails
    with [IndexError] exactly when the address is empty; otherwise the
    name in the file name has at most 50 characters, all of them ASCII
    letters, digits, underscores or hyphens. *)
Theorem generate_filename_from_url (url : string) (index : nat)
        (output_format : string) (article_title : option string) :
  title_given article_title = None ->
  (generate_filename url index output_format article_title = None <-> url = "")
  /\ (url <> "" ->
      exists name,
        generate_filename url index output_format article_title
        = Some ("page_" +++ Py.zfill3 index +++ "_" +++ name +++ "."
                +++ ext_map_get output_format)
        /\ String.length name <= 50
        /\ Py.all_chars Re.url_safe name = true).
Proof.
  intros Hnone.
  assert (url <> "" ->
          exists name,
            generate_filename url index output_format article_title
            = Some ("page_" +++ Py.zfill3 index +++ "_" +++ name +++ "."
                    +++ ext_map_get output_format)
            /\ String.length name <= 50
            /\ Py.all_chars Re.url_safe name = true) as Hsome.
  { intros Hurl. unfold generate_filename. rewrite Hnone.
    destruct (url_piece url Hurl) as [page_name ->].
    exists (Py.take 50 (Re.replace_others Re.url_safe "_" page_name)).
    split; [reflexivity | split].
    - apply take_length.
    - eapply deleted_from_all_chars; [apply take_deleted |].
      now apply replace_others_class. }
  split; [| exact Hsome].
  split.
  - intros H. destruct url as [| c url]; [reflexivity |].
    destruct Hsome as (name & Heq & _); [discriminate | congruence].
  - intros ->. unfold generate_filename. now rewrite Hnone.
Qed.

Lemma generate_filename_from_url_witness :
  generate_filename "" 1 "text" (Some "") = None
  /\ exists name,
       generate_filename "https://next.amboss.com/us/article/a.b?c" 12 "html" None
       = Some ("page_012_" +++ name +++ ".html")
       /\ Py.all_chars Re.url_safe name = true.
Proof.
  split.
  - apply (proj1 (generate_filename_from_url "" 1 "text" (Some "") eq_refl)).
    reflexivity.
  - destruct (proj2 (generate_filename_from_url
                       "https://next.amboss.com/us/article/a.b?c" 12 "html" None eq_refl))
      as (name & Heq & _ & Hsafe).
    + discriminate.
    + exists name. split; [exact Heq | exact Hsafe].
Defined.

Lemma word_filename_char (s : string) :
  Py.all_chars Re.word s = true -> Py.all_chars filename_char s = true.
Proof.
  apply all_chars_impl. intros c Hc. unfold filename_char. now rewrite Hc.
Qed.

Lemma url_safe_filename_char (s : string) :
  Py.all_chars Re.url_safe s = true -> Py.all_chars filename_char s = true.
Proof.
  apply all_chars_impl. intros c. unfold Re.url_safe, filename_char, Re.word, Re.hyphen.
  set (n := nat_of_ascii c). intros H.
  repeat (apply orb_true_iff in H as [H | H]); try now rewrite H, ?orb_true_r.
  apply Nat.eqb_eq in H.
  assert (c = "-"%char) as ->.
  { rewrite <- (ascii_nat_embedding c). fold n. now rewrite H. }
  now rewrite orb_true_r.
Qed.

Lemma filename_chars (index : nat) (output_format name : string) :
  Py.all_chars filename_char name = true ->
  Py.all_chars filename_char
    ("page_" +++ Py.zfill3 index +++ "_" +++ name +++ "." +++ ext_map_get output_format)
  = true.
Proof.
  intros Hname.
  rewrite !all_chars_append.
  rewrite (word_filename_char _ (zfill3_word index)).
  rewrite (word_filename_char _ (ext_map_get_word output_format)).
  now rewrite Hname.
Qed.

Lemma no_slash (s : string) :
  Py.all_chars filename_char s = true -> Str.contains "/" s = false.
Proof.
  induction s as [| c s IH]; [reflexivity |].
  cbn [Py.all_chars Str.contains Str.startswith]. intros H.
  apply andb_true_iff in H as [Hc Hs]. rewrite (IH Hs).
  rewrite andb_true_r, orb_false_r.
  destruct (Ascii.eqb_spec "/" c) as [<- | _]; [discriminate Hc | reflexivity].
Qed.

Lemma filename_char_not_space (c : ascii) :
  filename_char c = true -> negb (Str.isspace c) = true.
Proof.
  destruct c as [[] [] [] [] [] [] [] []]; vm_compute; intros H;
    first [reflexivity | discriminate H].
Qed.

Lemma no_space (s : string) :
  Py.all_chars filename_char s = true ->
  Py.all_chars (fun c => negb (Str.isspace c)) s = true.
Proof. apply all_chars_impl. exact filename_char_not_space. Qed.

(** X19.  Whatever the address, the index, the format and the title, a
    file name that [generate_filename] returns is made of word characters,
    hyphens and dots only: it holds no path separator and no white
    space. *)
Theorem generate_filename_safe (url : string) (index : nat) (output_format : string)
        (article_title : option string) (filename : string) :
  generate_filename url index output_format article_title = Some filename ->
  Py.all_chars filename_char filename = true
  /\ Str.contains "/" filename = false
  /\ Py.all_chars (fun c => negb (Str.isspace c)) filename = true.
Proof.
  intros H.
  assert (Py.all_chars filename_char filename = true) as Hsafe.
  { destruct (title_given article_title) as [t |] eqn:Et.
    - assert (article_title = Some t /\ t <> "") as [-> Hne].
      { destruct article_title as [a |]; [| discriminate].
        simpl in Et. destruct (Str.truthy a) eqn:Ea; [| discriminate].
        injection Et as <-. split; [reflexivity | now apply truthy_true]. }
      destruct (generate_filename_name_of_title url index output_format t Hne)
        as (name & Heq & Hword).
      rewrite Heq in H. injection H as <-.
      apply filename_chars. now apply word_filename_char.
    - destruct (generate_filename_name_of_url url index output_format article_title
                  filename Et H) as (name & -> & Hsafe).
      apply filename_chars. now apply url_safe_filename_char. }
  split; [exact Hsafe | split; [now apply no_slash | now apply no_space]].
Qed.

Lemma generate_filename_safe_witness :
  Str.contains "/" "page_007_abc123.md" = false.
Proof.
  apply (proj1 (proj2 (generate_filename_safe
                         "https://next.amboss.com/us/article/abc123" 7 "markdown" None
                         "page_007_abc123.md" eq_refl))).
Defined.

(** ** Lists of addresses *)

Lemma startswith_nonempty (p s : string) :
  p <> "" -> Str.startswith p s = true -> s <> "".
Proof.
  intros Hp H ->. destruct p; [now contradiction Hp | discriminate H].
Qed.

Lemma generate_filename_some (url : string) (index : nat) (output_format : string)
      (article_title : option string) :
  url <> "" ->
  exists filename, generate_filename url index output_format article_title = Some filename.
Proof.
  intros Hurl. unfold generate_filename.
  destruct (title_given article_title); [eexists; reflexivity |].
  destruct (url_piece url Hurl) as [page_name ->]. eexists; reflexivity.
Qed.

Lemma read_urls_each (open_lines : string -> option (list string)) (filename : string)
      (P : string -> Prop) :
  (forall line,
      Str.truthy (Str.strip line) = true ->
      Str.startswith "http://" (Str.strip line)
      || Str.startswith "https://" (Str.strip line) = true ->
      P (Str.strip line)) ->
  Forall P (read_urls_from_file open_lines filename).
Proof.
  intros HP. unfold read_urls_from_file.
  destruct (open_lines filename) as [f |]; [| constructor].
  apply Forall_forall. intros url Hin.
  apply in_flat_map in Hin as [line [_ Hin]].
  cbv zeta in Hin.
  destruct (Str.truthy (Str.strip line)) eqn:Et; cbn [andb] in Hin; [| destruct Hin].
  destruct (Str.startswith "#" (Str.strip line)); cbn [negb] in Hin; [destruct Hin |].
  destruct (Str.startswith "http://" (Str.strip line)
            || Str.startswith "https://" (Str.strip line)) eqn:Eh; [| destruct Hin].
  destruct Hin as [<- | []]. now apply HP.
Qed.

(** X20.  Every address that [read_urls_from_file] returns starts with
    "http://" or "https://" and has no white space at its ends. *)
Theorem read_urls_web_addresses (open_lines : string -> option (list string))
        (filename : string) :
  Forall (fun url => Str.startswith "http://" url || Str.startswith "https://" url = true
                     /\ Str.strip url = url)
         (read_urls_from_file open_lines filename).
Proof.
  apply read_urls_each. intros line _ Hweb.
  split; [exact Hweb | apply strip_idempotent].
Qed.

(** X21.  [generate_filename] never fails on an address that
    [read_urls_from_file] returns, whatever the index, the format and the
    title. *)
Theorem read_urls_have_filenames (open_lines : string -> option (list string))
        (filename : string) :
  Forall (fun url => forall index output_format article_title,
              exists name,
                generate_filename url index output_format article_title = Some name)
         (read_urls_from_file open_lines filename).
Proof.
  apply read_urls_each. intros line Hne _ index output_format article_title.
  apply generate_filename_some. now apply truthy_true.
Qed.

Example read_urls_ex :
  read_urls_from_file sample_lines "urls.txt"
  = ["https://next.amboss.com/us/article/abc"; "http://example.org/"]
  /\ read_urls_from_file sample_lines "missing.txt" = []
  /\ map (fun url => generate_filename url 3 "html" None)
         (read_urls_from_file sample_lines "urls.txt")
     = [Some "page_003_abc.html"; Some "page_003_example_org.html"].
Proof. repeat split; vm_compute; reflexivity. Qed.

(** ** Local files and the failure marker *)

Lemma join_head (sep : string) (c : ascii) (r : string) (l : list string) :
  exists rest, Str.join sep (String c r :: l) = String c rest.
Proof.
  unfold Str.join. destruct l as [| y l]; cbn [String.concat String.append];
    eexists; reflexivity.
Qed.

(** What [format_output] returns is empty, which takes an empty list of
    sections, or starts with a character other than "E". *)
Lemma format_output_head (sections : list section_data) (output_format : string)
      (article_title : option string) (s : string) :
  format_output sections output_format article_title = Return s ->
  (s = "" /\ sections = [])
  \/ exists c rest, s = String c rest /\ Ascii.eqb "E" c = false.
Proof.
  unfold format_output.
  destruct (String.eqb output_format "text").
  { intros [= <-]. unfold _format_text.
    destruct (title_given article_title) as [t |].
    - right. cbn [app].
      destruct (join_head Str.nl "#" (" " +++ t)
                  ("" :: flat_map
                           (fun '(i, section) =>
                              ["=== Section " +++ Str.of_nat i +++ ": " +++ title section
                               +++ " ==="; content section; ""])
                           (enumerate_from 1 sections))) as [rest Hrest].
      exists "#"%char, rest. split; [exact Hrest | reflexivity].
    - destruct sections as [| section sections]; [left; split; reflexivity | right].
      cbn [app enumerate_from flat_map].
      destruct (join_head Str.nl "="
                  ("== Section " +++ Str.of_nat 1 +++ ": " +++ title section +++ " ===")
                  ([content section; ""]
                   ++ flat_map
                        (fun '(i, section) =>
                           ["=== Section " +++ Str.of_nat i +++ ": " +++ title section
                            +++ " ==="; content section; ""])
                        (enumerate_from 2 sections))) as [rest Hrest].
      exists "="%char, rest. split; [exact Hrest | reflexivity]. }
  destruct (String.eqb output_format "markdown").
  { intros [= <-]. unfold _format_markdown.
    destruct (title_given article_title) as [t |].
    - right. cbn [app].
      destruct (join_head Str.nl "#" (" " +++ t)
                  ("" :: flat_map
                           (fun section => ["## " +++ title section; ""; content section; ""])
                           sections)) as [rest Hrest].
      exists "#"%char, rest. split; [exact Hrest | reflexivity].
    - destruct sections as [| section sections]; [left; split; reflexivity | right].
      cbn [app flat_map].
      destruct (join_head Str.nl "#" ("# " +++ title section)
                  ([""; content section; ""]
                   ++ flat_map
                        (fun section => ["## " +++ title section; ""; content section; ""])
                        sections)) as [rest Hrest].
      exists "#"%char, rest. split; [exact Hrest | reflexivity]. }
  destruct (String.eqb output_format "html"); [| discriminate].
  intros [= <-]. right. unfold _format_html.
  set (page_title := match title_given article_title with
                     | Some t => t
                     | None => "AMBOSS Content"
                     end).
  unfold html_head. rewrite <- app_comm_cons.
  match goal with
  | |- context [Str.join Str.nl ("<!DOCTYPE html>" :: ?l)] =>
      destruct (join_head Str.nl "<" "!DOCTYPE html>" l) as [rest Hrest]
  end.
  exists "<"%char, rest. split; [exact Hrest | reflexivity].
Qed.

Lemma format_output_is_no_failure_aux (sections : list section_data)
      (output_format : string) (article_title : option string) (s : string) :
  sections <> [] ->
  format_output sections output_format article_title = Return s ->
  counts_as_success s = true.
Proof.
  intros Hne H. apply format_output_head in H as [[_ ->] | (c & rest & -> & Hc)].
  - now contradiction Hne.
  - unfold counts_as_success. cbn [Str.startswith Str.truthy]. now rewrite Hc.
Qed.

(** X22.  Nothing that [format_output] returns starts with "Error", the
    marker by which the batch run tells a failure; and for a list of
    sections that is not empty the result is not empty. *)
Theorem format_output_is_no_failure (sections : list section_data)
        (output_format : string) (article_title : option string) (s : string) :
  format_output sections output_format article_title = Return s ->
  Str.startswith "Error" s = false
  /\ (sections <> [] -> counts_as_success s = true).
Proof.
  intros H. apply format_output_head in H as [[-> ->] | (c & rest & -> & Hc)].
  - split; [reflexivity | intros Hne; now contradiction Hne].
  - unfold counts_as_success. cbn [Str.startswith Str.truthy]. rewrite Hc.
    split; [reflexivity | intros _; reflexivity].
Qed.

Lemma format_output_is_no_failure_witness :
  counts_as_success
    (Str.join Str.nl ["# Heart"; ""; "## Anatomy"; ""; "<p>The heart.</p>"; ""]) = true.
Proof.
  apply (proj2 (format_output_is_no_failure
                  [mk_section "Anatomy" "<p>The heart.</p>"] "markdown" (Some "Heart")
                  _ eq_refl)).
  discriminate.
Defined.

(** X23.  The content that [scrape_local_file] returns fails the success
    test of the batch run exactly when reading the file or parsing it
    raises an exception other than [FileNotFoundError], or the page has
    sections and the format is not supported.  A file that is not found
    and a page without sections give a message that passes the test. *)
Theorem scrape_local_file_failure (open_read : string -> outcome string)
        (BeautifulSoup : string -> outcome node) (filepath output_format : string) :
  counts_as_success
    (fst (scrape_local_file open_read BeautifulSoup filepath output_format)) = false
  <-> (exists message, open_read filepath = Failed message)
      \/ (exists html_content message,
             open_read filepath = Done html_content
             /\ BeautifulSoup html_content = Failed message)
      \/ (exists html_content soup,
             open_read filepath = Done html_content
             /\ BeautifulSoup html_content = Done soup
             /\ fst (extract_sections soup) <> []
             /\ ~ supported output_format).
Proof.
  unfold scrape_local_file, local_file_not_found, local_file_error.
  destruct (open_read filepath) as [html_content | | message] eqn:Eo.
  - destruct (BeautifulSoup html_content) as [soup | | message] eqn:Eb.
    + destruct (extract_sections soup) as [sections article_title] eqn:Es.
      destruct sections as [| section sections].
      * split; [discriminate |].
        intros [(m & Hm) | [(h & m & Hh & Hm) | (h & s & Hh & Hs & Hne & _)]].
        -- discriminate Hm.
        -- injection Hh as <-. rewrite Eb in Hm. discriminate Hm.
        -- injection Hh as <-. rewrite Eb in Hs. injection Hs as <-.
           rewrite Es in Hne. now contradiction Hne.
      * destruct (format_output (section :: sections) output_format (Some article_title))
          as [formatted | [message]] eqn:Ef.
        -- split.
           ++ intros H. cbn [fst] in H.
              apply format_output_is_no_failure_aux in Ef; [congruence | discriminate].
           ++ intros [(m & Hm) | [(h & m & Hh & Hm) | (h & s & _ & _ & _ & Hno)]].
              ** discriminate Hm.
              ** injection Hh as <-. rewrite Eb in Hm. discriminate Hm.
              ** rewrite (format_output_unsupported _ _ _ Hno) in Ef. discriminate Ef.
        -- split; [| intros _; reflexivity].
           intros _. right. right. exists html_content, soup.
           split; [reflexivity | split; [exact Eb | split]].
           ++ rewrite Es. discriminate.
           ++ intros Hs.
              destruct (format_output_supported (section :: sections) output_format
                          (Some article_title) Hs) as [s Hr].
              rewrite Hr in Ef. discriminate Ef.
    + split; [discriminate |].
      intros [(m & Hm) | [(h & m & Hh & Hm) | (h & s & Hh & Hs & _)]].
      * discriminate Hm.
      * injection Hh as <-. rewrite Eb in Hm. discriminate Hm.
      * injection Hh as <-. rewrite Eb in Hs. discriminate Hs.
    + split; [| intros _; reflexivity].
      intros _. right. left. exists html_content, message. split; [reflexivity | exact Eb].
  - split; [discriminate |].
    intros [(m & Hm) | [(h & m & Hh & _) | (h & s & Hh & _)]]; discriminate.
  - split; [| intros _; reflexivity].
    intros _. left. now exists message.
Qed.

Lemma scrape_local_file_failure_witness :
  counts_as_success (fst (scrape_local_file sample_read sample_parser "page.html" "pdf"))
  = false
  /\ counts_as_success (fst (scrape_local_file sample_read sample_parser "pages" "text"))
     = false.
Proof.
  split.
  - apply (proj2 (scrape_local_file_failure sample_read sample_parser "page.html" "pdf")).
    right. right. exists "<html>...</html>", page_with_references.
    split; [reflexivity | split; [reflexivity | split]].
    + vm_compute. discriminate.
    + unfold supported; simpl. intros [H | [H | [H | []]]]; discriminate H.
  - apply (proj2 (scrape_local_file_failure sample_read sample_parser "pages" "text")).
    left. eexists. reflexivity.
Defined.

Example scrape_local_file_ex :
  scrape_local_file sample_read sample_parser "missing.html" "text"
  = ("Local file not found: missing.html", None)
  /\ counts_as_success "Local file not found: missing.html" = true
  /\ scrape_local_file sample_read sample_parser "page.html" "pdf"
     = ("Error reading local file page.html: Unsupported output format: pdf", None)
  /\ scrape_local_file sample_read sample_parser "pages" "text"
     = ("Error reading local file pages: [Errno 21] Is a directory: 'pages'", None)
  /\ snd (scrape_local_file sample_read sample_parser "page.html" "text")
     = Some "Medical Content".
Proof. repeat split; vm_compute; reflexivity. Qed.

(** ** The header of a table *)



